(** * ai-flight-planner: waypoint generation and Mission Planner export

    A shallow embedding of [web/export_waypoints_day3.py] and
    [web/export_waypoints_day3_backup.py].

    Numbers.  The modules [Py], [Day3] and [Backup] read Python's [float]
    as a real number: every arithmetic operation and every function of the
    [math] module is the exact one on [R].  Python's [int] is [Z].  The
    faults the interpreter raises on the operations used here
    ([ZeroDivisionError], and [ValueError] for a [math] domain error) are
    kept, as an error result.

    Where the exact reading and the code part.  In exact arithmetic the
    haversine term [a] never leaves [0, 1] and a blend of two coordinates
    never leaves the interval between them.  In binary64 both can happen
    by rounding: for an antipodal pair [a] can come out above 1, and
    [math.sqrt(1 - a)] then raises [ValueError]; a blend can end one unit
    in the last place outside its interval.  The module [Binary64] reads
    the distance functions and the loop of the generator as the IEEE
    doubles they compute with, and the statements on it say where the two
    readings part.  A statement on the exact reading that does not hold
    of the doubles bit for bit is marked as one over the reals. *)

From Stdlib Require Import Reals Lra Lia ZArith List Sorted Bool.
From Stdlib Require Import Zfloor.
From Stdlib Require Import Ascii String DecimalString DecimalPos DecimalZ.
From Stdlib Require Floats Uint63.
Import ListNotations.

(** ** Results of a call that may raise *)

Inductive exn : Set :=
| ZeroDivisionError
| ValueError
| OverflowError.

Inductive result (A : Type) : Type :=
| Ok (a : A)
| Raise (e : exn).

Arguments Ok {A} a.
Arguments Raise {A} e.

Definition bind {A B : Type} (r : result A) (k : A -> result B) : result B :=
  match r with
  | Ok a => k a
  | Raise e => Raise e
  end.

Notation "x <- r ;; k" := (bind r (fun x => k))
  (at level 61, r at next level, right associativity).

(** [for x in xs: body], the loop body updating the loop's state [S] and
    a raise leaving the loop at once. *)
Fixpoint for_in {A S : Type} (xs : list A) (body : A -> S -> result S) (s : S)
  : result S :=
  match xs with
  | [] => Ok s
  | x :: xs' => s' <- body x s ;; for_in xs' body s'
  end.

(** ** The parts of the Python runtime the two scripts use *)

Module Py.

Local Open Scope R_scope.

(** [math.radians(x)] *)
Definition radians (x : R) : R := x * (PI / 180).

(** [math.sqrt(x)]: a domain error below zero. *)
Definition sqrt (x : R) : result R :=
  if Rlt_dec x 0 then Raise ValueError else Ok (R_sqrt.sqrt x).

(** [math.asin(x)]: a domain error outside [-1, 1]. *)
Definition asin (x : R) : result R :=
  if Rlt_dec x (-1) then Raise ValueError
  else if Rlt_dec 1 x then Raise ValueError
  else Ok (Ratan.asin x).

(** [math.atan2(y, x)]: the angle of the point [(x, y)], in (-pi, pi]. *)
Definition atan2 (y x : R) : R :=
  if Rlt_dec 0 x then atan (y / x)
  else if Rlt_dec x 0 then
    if Rle_dec 0 y then atan (y / x) + PI else atan (y / x) - PI
  else if Rlt_dec 0 y then PI / 2
  else if Rlt_dec y 0 then - (PI / 2)
  else 0.

(** [x // y] on floats: the floor of the quotient, as a float. *)
Definition floordiv (x y : R) : result R :=
  if Req_dec_T y 0 then Raise ZeroDivisionError
  else Ok (IZR (Zfloor (x / y))).

(** [int(x)] on a float: truncation towards zero. *)
Definition int (x : R) : Z :=
  if Rle_dec 0 x then Zfloor x else Zceil x.

(** [i / n] on ints: true division. *)
Definition truediv (i n : Z) : result R :=
  if Z.eqb n 0 then Raise ZeroDivisionError else Ok (IZR i / IZR n).

(** [range(n)] *)
Definition range (n : Z) : list Z := map Z.of_nat (seq 0 (Z.to_nat n)).

(** [enumerate(xs)] *)
Definition enumerate {A : Type} (xs : list A) : list (Z * A) :=
  combine (range (Z.of_nat (List.length xs))) xs.

(** [str(i)] of an int, which is also how an f-string renders it. *)
Definition str_int (i : Z) : string := NilZero.string_of_int (Z.to_int i).

End Py.

(** A waypoint is the tuple [(lat, lon, alt)]; both scripts build it from
    two floats and an int literal. *)
Definition waypoint : Type := R * R * Z.

(** ** The file system and the console

    [open(filename, "w")] creates or truncates the file, [f.write] appends
    to it, and [print] appends a line to the standard output.  A file
    holds the text as written: a platform's translation of the newline in
    text mode and a failing write are outside this model. *)

Record world : Type := mkWorld {
  files : string -> option string;
  stdout : string
}.

Definition open_w (filename : string) (w : world) : world :=
  mkWorld (fun n => if String.eqb n filename then Some EmptyString else files w n)
          (stdout w).

Definition write (filename : string) (s : string) (w : world) : world :=
  mkWorld (fun n => if String.eqb n filename
                    then match files w n with
                         | Some old => Some (old ++ s)
                         | None => None
                         end
                    else files w n)%string
          (stdout w).

Definition tab : string := String "009"%char EmptyString.
Definition newline : string := String "010"%char EmptyString.

Definition print (s : string) (w : world) : world :=
  mkWorld (files w) (stdout w ++ s ++ newline)%string.

(** The bytes (UTF-8) of the two symbols the scripts print: U+2705 and
    U+2192. *)
Definition check_mark : string :=
  String "226"%char (String "156"%char (String "133"%char EmptyString)).
Definition right_arrow : string :=
  String "226"%char (String "134"%char (String "146"%char EmptyString)).

(** The f-string both exporters write for the waypoint at position [i];
    [repr_float] is how an f-string renders a float ([repr]). *)
Definition waypoint_line (repr_float : R -> string) (i : Z) (wp : waypoint)
  : string :=
  let '(lat, lon, alt) := wp in
  (Py.str_int i ++ tab ++ "0" ++ tab ++ "3" ++ tab ++ "16" ++ tab ++ "0" ++ tab
   ++ "0" ++ tab ++ "0" ++ tab ++ "0" ++ tab ++ repr_float lat ++ tab
   ++ repr_float lon ++ tab ++ Py.str_int alt ++ tab ++ "1" ++ newline)%string.

(** ** web/export_waypoints_day3.py *)

Module Day3.

Local Open Scope R_scope.

Definition haversine_distance (lat1 lon1 lat2 lon2 : R) : result R :=
  let R_earth := 6371000 in
  let phi1 := Py.radians lat1 in
  let phi2 := Py.radians lat2 in
  let dphi := Py.radians (lat2 - lat1) in
  let dlambda := Py.radians (lon2 - lon1) in
  let a := sin (dphi / 2) ^ 2 + cos phi1 * cos phi2 * sin (dlambda / 2) ^ 2 in
  y <- Py.sqrt a ;;
  x <- Py.sqrt (1 - a) ;;
  Ok (R_earth * (2 * Py.atan2 y x)).

Definition generate_waypoints (start end_ : R * R) (spacing : R)
  : result (list waypoint) :=
  let '(lat1, lon1) := start in
  let '(lat2, lon2) := end_ in
  distance <- haversine_distance lat1 lon1 lat2 lon2 ;;
  q <- Py.floordiv distance spacing ;;
  let num_points := Py.int q in
  for_in (Py.range (num_points + 1))
    (fun i waypoints =>
       f <- Py.truediv i num_points ;;
       let lat := lat1 + (lat2 - lat1) * f in
       let lon := lon1 + (lon2 - lon1) * f in
       Ok (waypoints ++ [(lat, lon, 100%Z)]))
    [].

(** The default [spacing=1000]. *)
Definition generate_waypoints_default (start end_ : R * R) :=
  generate_waypoints start end_ 1000.

Section Exporter.

Variable repr_float : R -> string.

Definition export_to_missionplanner (waypoints : list waypoint)
    (filename : string) (w : world) : world :=
  let w := open_w filename w in
  let w := write filename ("QGC WPL 110" ++ newline)%string w in
  let w := fold_left
             (fun w '(i, wp) => write filename (waypoint_line repr_float i wp) w)
             (Py.enumerate waypoints) w in
  print (check_mark ++ " Saved " ++ Py.str_int (Z.of_nat (List.length waypoints))
         ++ " waypoints to " ++ filename)%string w.

(** The default [filename="mission_day3.waypoints"]. *)
Definition export_to_missionplanner_default (waypoints : list waypoint) :=
  export_to_missionplanner waypoints "mission_day3.waypoints"%string.

(** The script run as a program ([if __name__ == "__main__"]): a raise of
    the generator ends the run before anything is written. *)
Definition main (w : world) : result world :=
  let start := (37.7749, -122.4194) in
  let end_ := (34.0522, -118.2437) in
  waypoints <- generate_waypoints start end_ 50000 ;;
  Ok (export_to_missionplanner_default waypoints w).

End Exporter.

End Day3.

(** ** web/export_waypoints_day3_backup.py *)

Module Backup.

Local Open Scope R_scope.

Definition haversine_distance (lat1 lon1 lat2 lon2 : R) : result R :=
  let R_earth := 6371000 in
  let dlat := Py.radians (lat2 - lat1) in
  let dlon := Py.radians (lon2 - lon1) in
  let a := sin (dlat / 2) ^ 2
           + cos (Py.radians lat1) * cos (Py.radians lat2) * sin (dlon / 2) ^ 2 in
  r <- Py.sqrt a ;;
  t <- Py.asin r ;;
  Ok (2 * R_earth * t).

Section Exporter.

Variable repr_float : R -> string.

Definition export_waypoints (waypoints : list waypoint)
    (filename : string) (w : world) : world :=
  let w := open_w filename w in
  let w := write filename ("QGC WPL 110" ++ newline)%string w in
  let w := fold_left
             (fun w '(i, wp) =>
                let line := waypoint_line repr_float i wp in
                write filename line w)
             (Py.enumerate waypoints) w in
  print ("[+] Exported " ++ Py.str_int (Z.of_nat (List.length waypoints))
         ++ " waypoints " ++ right_arrow ++ " " ++ filename)%string w.

(** The default [filename="mission.waypoints"]. *)
Definition export_waypoints_default (waypoints : list waypoint) :=
  export_waypoints waypoints "mission.waypoints"%string.

(** The script run as a program ([if __name__ == "__main__"]). *)
Definition main (w : world) : world :=
  let waypoints :=
    [(35.0, 127.0, 50%Z); (35.0005, 127.0005, 50%Z); (35.0010, 127.0010, 50%Z)] in
  export_waypoints_default waypoints w.

End Exporter.

End Backup.

(** ** The same code on IEEE doubles

    Here a [float] is the binary64 value the interpreter holds.  The four
    operations and the square root are the IEEE ones; the functions the
    [math] module takes from the platform's C library ([sin], [cos],
    [asin], [atan2], [pow]) are parameters, each behind the check the
    interpreter wraps around it. *)

Module Binary64.

Import PrimFloat.
Local Open Scope float_scope.
#[local] Set Warnings "-inexact-float".

(** The C library functions the two scripts reach. *)
Record libm : Type := mkLibm {
  libm_sin : float -> float;
  libm_cos : float -> float;
  libm_asin : float -> float;
  libm_atan2 : float -> float -> float;
  libm_pow : float -> float -> float
}.

(** [math.pi], the double 3.141592653589793. *)
Definition pi : float := 0x1.921fb54442d18p+1.

(** [math.radians(x)] *)
Definition radians (x : float) : float := x * (pi / 180).

(** A function of one argument as the [math] module calls it: a result
    that is not a number, or is infinite, for an argument that is not so,
    is a domain error. *)
Definition math_1 (f : float -> float) (x : float) : result float :=
  let r := f x in
  if is_nan r && negb (is_nan x) then Raise ValueError
  else if is_infinity r && is_finite x then Raise ValueError
  else Ok r.

(** A function of two arguments as the [math] module calls it. *)
Definition math_2 (f : float -> float -> float) (x y : float) : result float :=
  let r := f x y in
  if is_nan r && negb (is_nan x) && negb (is_nan y) then Raise ValueError
  else if is_infinity r && is_finite x && is_finite y then Raise OverflowError
  else Ok r.

(** [math.sqrt(x)]: the IEEE square root, which is not a number below
    zero. *)
Definition math_sqrt (x : float) : result float := math_1 sqrt x.

(** [x ** 2] on a float: the interpreter answers the special values
    itself and hands the absolute value of any other [x] to [pow]. *)
Definition pow2 (m : libm) (x : float) : result float :=
  if is_nan x then Ok x
  else if is_infinity x then Ok infinity
  else if x =? 0 then Ok 0
  else if abs x =? 1 then Ok 1
  else let r := libm_pow m (abs x) 2 in
       if is_infinity r then Raise OverflowError else Ok r.

(** [float(i)] for an int of at most 53 bits, where it is exact. *)
Definition float_of_int (i : Z) : float :=
  if (i <? 0)%Z then - of_uint63 (Uint63.of_Z (- i))
  else of_uint63 (Uint63.of_Z i).

(** [i / n] on ints of at most 53 bits: the quotient of the two doubles. *)
Definition truediv (i n : Z) : result float :=
  if (n =? 0)%Z then Raise ZeroDivisionError
  else Ok (float_of_int i / float_of_int n).

Definition waypoint : Type := float * float * Z.

Module Day3.

Definition haversine_distance (m : libm) (lat1 lon1 lat2 lon2 : float)
  : result float :=
  let R_earth := 6371000 in
  let phi1 := radians lat1 in
  let phi2 := radians lat2 in
  let dphi := radians (lat2 - lat1) in
  let dlambda := radians (lon2 - lon1) in
  s1 <- math_1 (libm_sin m) (dphi / 2) ;;
  p1 <- pow2 m s1 ;;
  c1 <- math_1 (libm_cos m) phi1 ;;
  c2 <- math_1 (libm_cos m) phi2 ;;
  s2 <- math_1 (libm_sin m) (dlambda / 2) ;;
  p2 <- pow2 m s2 ;;
  let a := p1 + c1 * c2 * p2 in
  y <- math_sqrt a ;;
  x <- math_sqrt (1 - a) ;;
  t <- math_2 (libm_atan2 m) y x ;;
  Ok (R_earth * (2 * t)).

(** The loop of [generate_waypoints] (lines 18 to 24 of the script) for
    the point count [num_points] that line 16 has computed. *)
Definition generate_waypoints_loop (num_points : Z) (start end_ : float * float)
  : result (list waypoint) :=
  let '(lat1, lon1) := start in
  let '(lat2, lon2) := end_ in
  for_in (Py.range (num_points + 1))
    (fun i waypoints =>
       f <- truediv i num_points ;;
       let lat := lat1 + (lat2 - lat1) * f in
       let lon := lon1 + (lon2 - lon1) * f in
       Ok (waypoints ++ [(lat, lon, 100%Z)]))
    [].

End Day3.

Module Backup.

Definition haversine_distance (m : libm) (lat1 lon1 lat2 lon2 : float)
  : result float :=
  let R_earth := 6371000 in
  let dlat := radians (lat2 - lat1) in
  let dlon := radians (lon2 - lon1) in
  s1 <- math_1 (libm_sin m) (dlat / 2) ;;
  p1 <- pow2 m s1 ;;
  c1 <- math_1 (libm_cos m) (radians lat1) ;;
  c2 <- math_1 (libm_cos m) (radians lat2) ;;
  s2 <- math_1 (libm_sin m) (dlon / 2) ;;
  p2 <- pow2 m s2 ;;
  let a := p1 + c1 * c2 * p2 in
  r <- math_sqrt a ;;
  t <- math_1 (libm_asin m) r ;;
  Ok (2 * R_earth * t).

End Backup.

(** The values the C library returns at the arguments the two distance
    functions reach for the antipodal pair (8, 0), (-8, 180); at any other
    argument this stand-in answers as at these. *)
Definition libm_antipodal_run : libm :=
  mkLibm (fun x => if x <? 0 then -0.13917310096006544 else 1)
         (fun _ => 0.9902680687415704)
         (fun _ => 1.5707963267948966)
         (fun _ _ => 1.5707963267948966)
         (fun _ _ => 0.019369152030840567).

End Binary64.

(** ** Reading a mission file back *)

(** The lines of a text, as [str.splitlines] gives them for a text whose
    only line break is the newline character. *)
Fixpoint lines (s : string) : list string :=
  match s with
  | EmptyString => []
  | String c s' =>
      if Ascii.eqb c "010"%char then EmptyString :: lines s'
      else match lines s' with
           | [] => [String c EmptyString]
           | l :: ls => String c l :: ls
           end
  end.

(** [s.split(sep)] for a one-character separator. *)
Fixpoint split (sep : ascii) (s : string) : list string :=
  match s with
  | EmptyString => [EmptyString]
  | String c s' =>
      if Ascii.eqb c sep then EmptyString :: split sep s'
      else match split sep s' with
           | [] => [String c EmptyString]
           | f :: fs => String c f :: fs
           end
  end.

(** The tab-separated fields of a line. *)
Definition fields (line : string) : list string := split "009"%char line.

(** The character [c] does not occur in [s]. *)
Fixpoint free_of (c : ascii) (s : string) : bool :=
  match s with
  | EmptyString => true
  | String c' s' => negb (Ascii.eqb c' c) && free_of c s'
  end.

(** A text that holds neither a tab nor a newline, so that it stays one
    field of one line. *)
Definition plain (s : string) : bool :=
  free_of "009"%char s && free_of "010"%char s.

(** ** Derived notions used in the statements *)

Local Open Scope R_scope.

(** The haversine term [a] both scripts compute before taking roots. *)
Definition hav_a (lat1 lon1 lat2 lon2 : R) : R :=
  sin (Py.radians (lat2 - lat1) / 2) ^ 2
  + cos (Py.radians lat1) * cos (Py.radians lat2)
    * sin (Py.radians (lon2 - lon1) / 2) ^ 2.

(** The waypoint the loop of [generate_waypoints] appends for the blend
    fraction [f]. *)
Definition waypoint_at (start end_ : R * R) (f : R) : waypoint :=
  (fst start + (fst end_ - fst start) * f,
   snd start + (snd end_ - snd start) * f,
   100%Z).

(** The blend fraction [i / num_points]. *)
Definition fraction (num_points i : Z) : R := IZR i / IZR num_points.

(** [x] lies between [p] and [q], whichever is the smaller. *)
Definition between (p q x : R) : Prop := Rmin p q <= x <= Rmax p q.

(** The content of the file [filename], if it exists. *)
Definition file (w : world) (filename : string) : option string :=
  files w filename.

(** The fields of the record for the waypoint at position [i], as
    section 6 of the specification lists them. *)
Definition record_fields (repr_float : R -> string) (i : Z) (wp : waypoint)
  : list string :=
  let '(lat, lon, alt) := wp in
  [Py.str_int i; "0"; "3"; "16"; "0"; "0"; "0"; "0";
   repr_float lat; repr_float lon; Py.str_int alt; "1"]%string.

(** The format of a mission file for a waypoint list: the header line,
    then at line [i + 1] the 12 tab-separated fields of waypoint [i]. *)
Definition mission_format (repr_float : R -> string) (waypoints : list waypoint)
    (text : string) : Prop :=
  nth_error (lines text) 0 = Some "QGC WPL 110"%string
  /\ forall (i : nat) (wp : waypoint),
       nth_error waypoints i = Some wp ->
       exists line,
         nth_error (lines text) (S i) = Some line
         /\ fields line = record_fields repr_float (Z.of_nat i) wp.

(** [sep.join(fs)] for a one-character separator. *)
Fixpoint join (sep : ascii) (fs : list string) : string :=
  match fs with
  | [] => EmptyString
  | [f] => f
  | f :: fs' => (f ++ String sep (join sep fs'))%string
  end.

(** The text of a list of lines, each ended by a newline. *)
Fixpoint unlines (ls : list string) : string :=
  match ls with
  | [] => EmptyString
  | l :: ls' => (l ++ newline ++ unlines ls')%string
  end.

(** * Properties *)

(** ** The runtime operations on their domains *)

Lemma py_sqrt_ok (x : R) : 0 <= x -> Py.sqrt x = Ok (sqrt x).
Proof.
  intros Hx. unfold Py.sqrt. destruct (Rlt_dec x 0) as [Hneg | _]; [lra | reflexivity].
Qed.

Lemma py_asin_ok (x : R) : -1 <= x <= 1 -> Py.asin x = Ok (asin x).
Proof.
  intros [Hlo Hhi]. unfold Py.asin.
  destruct (Rlt_dec x (-1)); [lra |].
  destruct (Rlt_dec 1 x); [lra | reflexivity].
Qed.

Lemma atan_nonneg (t : R) : 0 <= t -> 0 <= atan t.
Proof.
  intros [Hpos | <-].
  - left. rewrite <- atan_0. now apply atan_increasing.
  - rewrite atan_0. lra.
Qed.

Lemma atan2_first_quadrant (y x : R) : 0 <= y -> 0 <= x -> 0 <= Py.atan2 y x <= PI / 2.
Proof.
  intros Hy Hx. unfold Py.atan2.
  pose proof PI2_RGT_0 as Hpi.
  destruct (Rlt_dec 0 x) as [Hx0 | Hx0].
  - split.
    + apply atan_nonneg. apply Rmult_le_pos; [assumption |].
      left. now apply Rinv_0_lt_compat.
    + left. apply atan_bound.
  - destruct (Rlt_dec x 0); [lra |].
    destruct (Rlt_dec 0 y); [lra |].
    destruct (Rlt_dec y 0); lra.
Qed.

(** On the unit interval the two inverse functions agree. *)
Lemma atan2_sqrt_asin (a : R) :
  0 <= a <= 1 -> Py.atan2 (sqrt a) (sqrt (1 - a)) = asin (sqrt a).
Proof.
  intros [Ha0 Ha1].
  destruct (Rle_lt_or_eq_dec a 1 Ha1) as [Hlt | ->].
  - assert (Hs : 0 < sqrt (1 - a)) by (apply sqrt_lt_R0; lra).
    assert (Hs1 : sqrt a < 1).
    { rewrite <- sqrt_1. apply sqrt_lt_1_alt. lra. }
    pose proof (sqrt_pos a) as Hs0.
    unfold Py.atan2. destruct (Rlt_dec 0 (sqrt (1 - a))); [| lra].
    rewrite asin_atan by lra.
    rewrite Rsqr_sqrt by assumption. reflexivity.
  - replace (1 - 1) with 0 by ring. rewrite sqrt_0, sqrt_1, asin_1.
    unfold Py.atan2.
    destruct (Rlt_dec 0 0); [lra |].
    destruct (Rlt_dec 0 1); [reflexivity | lra].
Qed.

(** ** The haversine term *)

Lemma sin2_cos2_pow (x : R) : sin x ^ 2 + cos x ^ 2 = 1.
Proof. pose proof (sin2_cos2 x) as H. unfold Rsqr in H. lra. Qed.

Lemma hav_core_bounds (u v l : R) :
  0 <= sin u ^ 2 + cos (v - u) * cos (v + u) * sin l ^ 2 <= 1.
Proof.
  rewrite cos_minus, cos_plus.
  pose proof (sin2_cos2_pow u) as Hu.
  pose proof (sin2_cos2_pow v) as Hv.
  pose proof (sin2_cos2_pow l) as Hl.
  pose proof (pow2_ge_0 (sin u)) as Hsu. pose proof (pow2_ge_0 (cos u)) as Hcu.
  pose proof (pow2_ge_0 (sin v)) as Hsv. pose proof (pow2_ge_0 (cos v)) as Hcv.
  pose proof (pow2_ge_0 (sin l)) as Hsl. pose proof (pow2_ge_0 (cos l)) as Hcl.
  assert (Hcu2 : cos u ^ 2 = 1 - sin u ^ 2) by lra.
  assert (Hsv2 : sin v ^ 2 = 1 - cos v ^ 2) by lra.
  assert (E : (cos v * cos u + sin v * sin u) * (cos v * cos u - sin v * sin u)
              = cos v ^ 2 - sin u ^ 2).
  { transitivity (cos v ^ 2 * cos u ^ 2 - sin v ^ 2 * sin u ^ 2); [ring |].
    rewrite Hcu2, Hsv2. ring. }
  rewrite E. split; nra.
Qed.

Lemma hav_a_bounds (lat1 lon1 lat2 lon2 : R) : 0 <= hav_a lat1 lon1 lat2 lon2 <= 1.
Proof.
  unfold hav_a.
  set (u := Py.radians (lat2 - lat1) / 2).
  set (v := Py.radians lat1 + u).
  replace (Py.radians lat1) with (v - u) by (unfold v; ring).
  replace (Py.radians lat2) with (v + u)
    by (unfold v, u, Py.radians; field).
  apply hav_core_bounds.
Qed.

Lemma hav_a_sym (lat1 lon1 lat2 lon2 : R) :
  hav_a lat1 lon1 lat2 lon2 = hav_a lat2 lon2 lat1 lon1.
Proof.
  unfold hav_a.
  replace (Py.radians (lat1 - lat2) / 2) with (- (Py.radians (lat2 - lat1) / 2))
    by (unfold Py.radians; field).
  replace (Py.radians (lon1 - lon2) / 2) with (- (Py.radians (lon2 - lon1) / 2))
    by (unfold Py.radians; field).
  rewrite !sin_neg. ring.
Qed.

Lemma hav_a_same (lat lon : R) : hav_a lat lon lat lon = 0.
Proof.
  unfold hav_a, Py.radians.
  replace ((lat - lat) * (PI / 180) / 2) with 0 by field.
  replace ((lon - lon) * (PI / 180) / 2) with 0 by field.
  rewrite sin_0. ring.
Qed.

(** Both distance functions in terms of [hav_a]. *)
Lemma day3_haversine_unfold (lat1 lon1 lat2 lon2 : R) :
  Day3.haversine_distance lat1 lon1 lat2 lon2
  = Ok (6371000 * (2 * Py.atan2 (sqrt (hav_a lat1 lon1 lat2 lon2))
                                (sqrt (1 - hav_a lat1 lon1 lat2 lon2)))).
Proof.
  pose proof (hav_a_bounds lat1 lon1 lat2 lon2) as Ha.
  unfold Day3.haversine_distance. fold (hav_a lat1 lon1 lat2 lon2).
  rewrite py_sqrt_ok by lra. cbn [bind].
  rewrite py_sqrt_ok by lra. reflexivity.
Qed.

Lemma backup_haversine_unfold (lat1 lon1 lat2 lon2 : R) :
  Backup.haversine_distance lat1 lon1 lat2 lon2
  = Ok (2 * 6371000 * asin (sqrt (hav_a lat1 lon1 lat2 lon2))).
Proof.
  pose proof (hav_a_bounds lat1 lon1 lat2 lon2) as Ha.
  unfold Backup.haversine_distance. fold (hav_a lat1 lon1 lat2 lon2).
  rewrite py_sqrt_ok by lra. cbn [bind].
  rewrite py_asin_ok; [reflexivity |].
  pose proof (sqrt_pos (hav_a lat1 lon1 lat2 lon2)).
  split; [lra |].
  rewrite <- sqrt_1. apply sqrt_le_1_alt. lra.
Qed.

(** The distance function never raises, and a distance is between zero
    and half the circumference. *)
Lemma day3_haversine_total (lat1 lon1 lat2 lon2 : R) :
  exists d, Day3.haversine_distance lat1 lon1 lat2 lon2 = Ok d
            /\ 0 <= d <= 6371000 * PI.
Proof.
  eexists. split; [apply day3_haversine_unfold |].
  pose proof (hav_a_bounds lat1 lon1 lat2 lon2) as Ha.
  pose proof (atan2_first_quadrant (sqrt (hav_a lat1 lon1 lat2 lon2))
                (sqrt (1 - hav_a lat1 lon1 lat2 lon2))
                (sqrt_pos _) (sqrt_pos _)) as Hq.
  lra.
Qed.

(** ** The loop of [generate_waypoints] *)

Lemma py_int_IZR (n : Z) : Py.int (IZR n) = n.
Proof.
  unfold Py.int. destruct (Rle_dec 0 (IZR n)).
  - apply ZfloorZ.
  - unfold Zceil. rewrite ZfloorNZ. lia.
Qed.

Lemma py_range_nonpos (n : Z) : (n <= 0)%Z -> Py.range n = [].
Proof.
  intros Hn. unfold Py.range.
  replace (Z.to_nat n) with 0%nat by lia. reflexivity.
Qed.

Lemma py_range_length (n : Z) : List.length (Py.range n) = Z.to_nat n.
Proof. unfold Py.range. now rewrite length_map, length_seq. Qed.

Lemma py_range_nth (n : Z) (k : nat) :
  (k < Z.to_nat n)%nat -> nth_error (Py.range n) k = Some (Z.of_nat k).
Proof.
  intros Hk. unfold Py.range.
  rewrite nth_error_map, nth_error_seq.
  destruct (Nat.ltb_spec k (Z.to_nat n)); [reflexivity | lia].
Qed.

Lemma py_range_bounds (n i : Z) : In i (Py.range n) -> (0 <= i < n)%Z.
Proof.
  unfold Py.range. rewrite in_map_iff.
  intros (k & <- & Hk). apply in_seq in Hk. lia.
Qed.

Section Loop.

Variables lat1 lon1 lat2 lon2 : R.
Variable num_points : Z.

(** The body of the loop, as [generate_waypoints] has it. *)
Let body (i : Z) (waypoints : list waypoint) : result (list waypoint) :=
  f <- Py.truediv i num_points ;;
  let lat := lat1 + (lat2 - lat1) * f in
  let lon := lon1 + (lon2 - lon1) * f in
  Ok (waypoints ++ [(lat, lon, 100%Z)]).

Lemma loop_appends (xs : list Z) (acc : list waypoint) :
  num_points <> 0%Z ->
  for_in xs body acc
  = Ok (acc ++ map (fun i => waypoint_at (lat1, lon1) (lat2, lon2)
                               (fraction num_points i)) xs).
Proof.
  intros Hn. revert acc.
  induction xs as [| i xs IH]; intros acc; cbn [for_in map].
  - now rewrite app_nil_r.
  - unfold body at 1, Py.truediv.
    destruct (Z.eqb_spec num_points 0) as [E | _]; [contradiction |].
    cbn [bind]. rewrite IH, <- app_assoc. reflexivity.
Qed.

Lemma loop_raises (i : Z) (xs : list Z) (acc : list waypoint) :
  num_points = 0%Z -> for_in (i :: xs) body acc = Raise ZeroDivisionError.
Proof.
  intros ->. cbn [for_in]. unfold body, Py.truediv. reflexivity.
Qed.

End Loop.

(** What [generate_waypoints] does, case by case, once the distance is
    known. *)
Lemma generate_waypoints_cases (start end_ : R * R) (spacing d : R) :
  Day3.haversine_distance (fst start) (snd start) (fst end_) (snd end_) = Ok d ->
  Day3.generate_waypoints start end_ spacing
  = if Req_dec_T spacing 0 then Raise ZeroDivisionError
    else if Z.eqb (Zfloor (d / spacing)) 0 then Raise ZeroDivisionError
    else Ok (map (fun i => waypoint_at start end_ (fraction (Zfloor (d / spacing)) i))
                 (Py.range (Zfloor (d / spacing) + 1))).
Proof.
  destruct start as [lat1 lon1], end_ as [lat2 lon2]. cbn [fst snd].
  intros Hd. unfold Day3.generate_waypoints. rewrite Hd. cbn [bind].
  unfold Py.floordiv. destruct (Req_dec_T spacing 0) as [Hs | Hs]; [reflexivity |].
  cbn [bind]. rewrite py_int_IZR.
  destruct (Z.eqb_spec (Zfloor (d / spacing)) 0) as [Hn | Hn].
  - rewrite Hn. change (Py.range (0 + 1)) with [0%Z].
    now apply loop_raises.
  - now rewrite loop_appends.
Qed.

(** ** The distance calculator *)

Lemma day3_haversine_same (lat lon : R) :
  Day3.haversine_distance lat lon lat lon = Ok 0.
Proof.
  rewrite day3_haversine_unfold, hav_a_same. f_equal.
  replace (1 - 0) with 1 by ring. rewrite sqrt_0, sqrt_1.
  unfold Py.atan2. destruct (Rlt_dec 0 1); [| lra].
  replace (0 / 1) with 0 by field. rewrite atan_0. ring.
Qed.

Lemma backup_haversine_same (lat lon : R) :
  Backup.haversine_distance lat lon lat lon = Ok 0.
Proof.
  rewrite backup_haversine_unfold, hav_a_same. f_equal.
  rewrite sqrt_0, asin_0. ring.
Qed.

(** C4: for every coordinate, the distance from it to itself is 0, in the
    atan2-based and in the asin-based implementation. *)
Theorem haversine_distance_same_point (lat lon : R) :
  Day3.haversine_distance lat lon lat lon = Ok 0
  /\ Backup.haversine_distance lat lon lat lon = Ok 0.
Proof.
  split; [apply day3_haversine_same | apply backup_haversine_same].
Qed.

(** C5: the distance from A to B is the distance from B to A, in the
    atan2-based and in the asin-based implementation. *)
Theorem haversine_distance_symmetric (lat1 lon1 lat2 lon2 : R) :
  (exists d : R,
      Day3.haversine_distance lat1 lon1 lat2 lon2 = Ok d
      /\ Day3.haversine_distance lat2 lon2 lat1 lon1 = Ok d)
  /\ (exists d : R,
         Backup.haversine_distance lat1 lon1 lat2 lon2 = Ok d
         /\ Backup.haversine_distance lat2 lon2 lat1 lon1 = Ok d).
Proof.
  rewrite !day3_haversine_unfold, !backup_haversine_unfold.
  rewrite (hav_a_sym lat2 lon2 lat1 lon1).
  split; eexists; split; reflexivity.
Qed.

(** Over the reals the atan2-based and the asin-based formula are one
    function: in exact arithmetic both return, and return the same
    distance.  ([haversine_binary64_antipodal] below shows the doubles
    doing otherwise.) *)
Lemma haversine_real_formulas_agree (lat1 lon1 lat2 lon2 : R) :
  exists d : R,
    Day3.haversine_distance lat1 lon1 lat2 lon2 = Ok d
    /\ Backup.haversine_distance lat1 lon1 lat2 lon2 = Ok d.
Proof.
  rewrite day3_haversine_unfold, backup_haversine_unfold.
  rewrite atan2_sqrt_asin by apply hav_a_bounds.
  eexists. split; [reflexivity |]. f_equal. ring.
Qed.

(** ** Two concrete runs *)

Lemma hav_a_equator_half_turn : hav_a 0 0 0 180 = 1.
Proof.
  unfold hav_a, Py.radians.
  replace ((0 - 0) * (PI / 180) / 2) with 0 by field.
  replace (0 * (PI / 180)) with 0 by ring.
  replace ((180 - 0) * (PI / 180) / 2) with (PI / 2) by field.
  rewrite sin_0, cos_0, sin_PI2. ring.
Qed.

Lemma haversine_equator_half_turn :
  Day3.haversine_distance 0 0 0 180 = Ok (6371000 * PI).
Proof.
  rewrite day3_haversine_unfold, atan2_sqrt_asin by apply hav_a_bounds.
  rewrite hav_a_equator_half_turn, sqrt_1, asin_1. f_equal. field.
Qed.

Lemma PI_gt_3 : 3 < PI.
Proof. pose proof PI2_3_2. lra. Qed.

(** From (0, 0) to (0, 180) at a spacing of 19113 km: two waypoints, the
    two end points. *)
Lemma generate_waypoints_two_points :
  Day3.generate_waypoints (0, 0) (0, 180) 19113000
  = Ok [(0, 0, 100%Z); (0, 180, 100%Z)].
Proof.
  rewrite (generate_waypoints_cases (0, 0) (0, 180) _ _ haversine_equator_half_turn).
  destruct (Req_dec_T 19113000 0) as [E | _]; [lra |].
  assert (Hn : Zfloor (6371000 * PI / 19113000) = 1%Z).
  { apply Zfloor_eq. pose proof PI_gt_3. pose proof PI_4. lra. }
  rewrite Hn. cbn [Z.eqb]. change (Py.range (1 + 1)) with [0%Z; 1%Z].
  cbn [map]. unfold waypoint_at, fraction. cbn [fst snd].
  do 2 f_equal; [| f_equal]; do 2 f_equal; field.
Qed.

(** The same leg at a spacing of -1: the call returns, with no waypoint. *)
Lemma generate_waypoints_negative_spacing :
  Day3.generate_waypoints (0, 0) (0, 180) (-1) = Ok [].
Proof.
  rewrite (generate_waypoints_cases (0, 0) (0, 180) _ _ haversine_equator_half_turn).
  destruct (Req_dec_T (-1) 0) as [E | _]; [lra |].
  pose proof (Zfloor_bound (6371000 * PI / -1)) as [Hlo _].
  assert (Hneg : (Zfloor (6371000 * PI / -1) < 0)%Z).
  { apply lt_IZR. pose proof PI_gt_3. lra. }
  destruct (Z.eqb_spec (Zfloor (6371000 * PI / -1)) 0) as [E | _]; [lia |].
  now rewrite py_range_nonpos by lia.
Qed.

(** ** The waypoint generator *)

Lemma quotient_ge_1 (d s : R) : 0 < s -> s <= d -> 1 <= d / s.
Proof.
  intros Hs Hd. apply (Rmult_le_reg_r s); [assumption |].
  unfold Rdiv. rewrite Rmult_assoc, Rinv_l by lra. lra.
Qed.

Lemma quotient_lt_1 (d s : R) : 0 < s -> 0 <= d < s -> 0 <= d / s < 1.
Proof.
  intros Hs [Hd0 Hd]. split.
  - apply Rmult_le_pos; [assumption |]. left. now apply Rinv_0_lt_compat.
  - apply (Rmult_lt_reg_r s); [assumption |].
    unfold Rdiv. rewrite Rmult_assoc, Rinv_l by lra. lra.
Qed.

(** The point count for a positive spacing: zero exactly below the
    spacing. *)
Lemma num_points_positive_spacing (d s : R) :
  0 <= d -> 0 < s ->
  (d < s -> Zfloor (d / s) = 0%Z) /\ (s <= d -> (1 <= Zfloor (d / s))%Z).
Proof.
  intros Hd Hs. split; intros H.
  - apply Zfloor_eq. pose proof (quotient_lt_1 d s Hs (conj Hd H)). simpl. lra.
  - apply Zfloor_lub. now apply quotient_ge_1.
Qed.



(** The point count is 0 exactly below a positive spacing, and for a
    negative spacing exactly at distance 0. *)
Lemma num_points_zero_iff (d s : R) :
  0 <= d -> s <> 0 ->
  Zfloor (d / s) = 0%Z <-> (0 < s /\ d < s) \/ (s < 0 /\ d = 0).
Proof.
  intros Hd Hs.
  destruct (Rlt_le_dec 0 s) as [Hpos | Hneg].
  - destruct (num_points_positive_spacing d s Hd Hpos) as [Hzero Hge].
    split.
    + intros Hn. left. split; [assumption |].
      destruct (Rlt_le_dec d s) as [Hlt | Hle]; [assumption |].
      specialize (Hge Hle). lia.
    + intros [[_ Hlt] | [Hs' _]]; [auto | lra].
  - assert (Hs' : s < 0) by lra.
    pose proof (Zfloor_bound (d / s)) as [Hlo Hhi].
    assert (Hinv : / s < 0) by now apply Rinv_lt_0_compat.
    split.
    + intros Hn. right. split; [assumption |].
      rewrite Hn in Hlo. simpl in Hlo. unfold Rdiv in Hlo. nra.
    + intros [[Hs'' _] | [_ ->]]; [lra |].
      replace (0 / s) with 0 by (unfold Rdiv; ring). apply (ZfloorZ 0).
Qed.

(** C2, as the claim has it, fails when the spacing is 0: the distance
    from (0, 0) to itself is 0, which is not below the spacing, and the
    floor division by the spacing raises [ZeroDivisionError]. *)
Lemma generate_waypoints_zero_spacing_raises :
  Day3.haversine_distance 0 0 0 0 = Ok 0
  /\ ~ 0 < 0
  /\ Day3.generate_waypoints (0, 0) (0, 0) 0 = Raise ZeroDivisionError.
Proof.
  pose proof (day3_haversine_same 0 0) as Hd.
  repeat split; [exact Hd | lra |].
  rewrite (generate_waypoints_cases (0, 0) (0, 0) _ _ Hd).
  destruct (Req_dec_T 0 0) as [_ | N]; [reflexivity | now elim N].
Qed.

(** C2 (amended): whenever [haversine_distance] returns a distance [d],
    the generator raises [ZeroDivisionError] if and only if the spacing
    is 0, or positive and above [d], or negative with [d = 0] (the cases
    in which the spacing or the point count is 0); in every other case, the
    quotient [d / spacing] being below 2^1023 in absolute value and so
    within the range of a float, it returns normally. *)
Theorem generate_waypoints_raises_iff (start end_ : R * R) (spacing d : R) :
  Day3.haversine_distance (fst start) (snd start) (fst end_) (snd end_) = Ok d ->
  (Day3.generate_waypoints start end_ spacing = Raise ZeroDivisionError
   <-> spacing = 0 \/ (0 < spacing /\ d < spacing) \/ (spacing < 0 /\ d = 0))
  /\ (~ (spacing = 0 \/ (0 < spacing /\ d < spacing) \/ (spacing < 0 /\ d = 0)) ->
      Rabs (d / spacing) < 2 ^ 1023 ->
      exists waypoints, Day3.generate_waypoints start end_ spacing = Ok waypoints).
Proof.
  intros Hd.
  destruct (day3_haversine_total (fst start) (snd start) (fst end_) (snd end_))
    as (d' & Hd' & Hd0 & _).
  rewrite Hd in Hd'. injection Hd' as <-.
  rewrite (generate_waypoints_cases _ _ _ _ Hd).
  destruct (Req_dec_T spacing 0) as [E | N].
  - split; [split; [now left | reflexivity] |].
    intros Hno. elim Hno. now left.
  - pose proof (num_points_zero_iff d spacing Hd0 N) as Hiff.
    destruct (Z.eqb_spec (Zfloor (d / spacing)) 0) as [E | N'].
    + split; [split; [intros _; right; now apply Hiff | reflexivity] |].
      intros Hno. elim Hno. right. now apply Hiff.
    + split.
      * split; [discriminate |].
        intros [E | H]; [contradiction | apply Hiff in H; contradiction].
      * intros _ _. eexists. reflexivity.
Qed.

Lemma generate_waypoints_raises_iff_witness :
  (Day3.generate_waypoints (0, 0) (0, 180) 19113000 = Raise ZeroDivisionError
   <-> 19113000 = 0 \/ (0 < 19113000 /\ 6371000 * PI < 19113000)
       \/ (19113000 < 0 /\ 6371000 * PI = 0))
  /\ (~ (19113000 = 0 \/ (0 < 19113000 /\ 6371000 * PI < 19113000)
         \/ (19113000 < 0 /\ 6371000 * PI = 0)) ->
      Rabs (6371000 * PI / 19113000) < 2 ^ 1023 ->
      exists waypoints,
        Day3.generate_waypoints (0, 0) (0, 180) 19113000 = Ok waypoints).
Proof.
  apply (generate_waypoints_raises_iff (0, 0) (0, 180) 19113000 (6371000 * PI)).
  exact haversine_equator_half_turn.
Defined.

(** Whatever the sign of the spacing: the generator raises exactly when
    the spacing is 0 or the point count is 0. *)
Lemma generate_waypoints_raises_any_spacing (start end_ : R * R) (spacing d : R) :
  Day3.haversine_distance (fst start) (snd start) (fst end_) (snd end_) = Ok d ->
  (exists e, Day3.generate_waypoints start end_ spacing = Raise e)
  <-> spacing = 0 \/ Zfloor (d / spacing) = 0%Z.
Proof.
  intros Hd. rewrite (generate_waypoints_cases _ _ _ _ Hd).
  destruct (Req_dec_T spacing 0) as [E | N].
  - split; [now left | intros _; now eexists].
  - destruct (Z.eqb_spec (Zfloor (d / spacing)) 0) as [E | N'].
    + split; [now right | intros _; now eexists].
    + split; [intros [e He]; discriminate | intros [E | E]; contradiction].
Qed.

(** A normal return, read off the case analysis: the point count is not 0
    and the list is the blend at each index of the range. *)
Lemma generate_waypoints_returns (start end_ : R * R) (spacing : R)
    (waypoints : list waypoint) :
  Day3.generate_waypoints start end_ spacing = Ok waypoints ->
  exists d num_points,
    0 <= d /\ spacing <> 0 /\ num_points = Zfloor (d / spacing)
    /\ num_points <> 0%Z
    /\ waypoints = map (fun i => waypoint_at start end_ (fraction num_points i))
                       (Py.range (num_points + 1)).
Proof.
  destruct (day3_haversine_total (fst start) (snd start) (fst end_) (snd end_))
    as (d & Hd & Hd0 & _).
  rewrite (generate_waypoints_cases _ _ _ _ Hd).
  destruct (Req_dec_T spacing 0) as [E | N]; [discriminate |].
  destruct (Z.eqb_spec (Zfloor (d / spacing)) 0) as [E | N']; [discriminate |].
  intros [= <-]. exists d, (Zfloor (d / spacing)). auto.
Qed.

Lemma fraction_first (n : Z) : fraction n 0 = 0.
Proof. unfold fraction, Rdiv. ring. Qed.

Lemma fraction_last (n : Z) : n <> 0%Z -> fraction n n = 1.
Proof.
  intros Hn. unfold fraction. field. now apply not_0_IZR.
Qed.

Lemma fraction_unit (n i : Z) : (0 <= i <= n)%Z -> (0 < n)%Z -> 0 <= fraction n i <= 1.
Proof.
  intros [Hi0 Hin] Hn. unfold fraction.
  assert (Hn' : 0 < IZR n) by now apply IZR_lt.
  apply IZR_le in Hi0, Hin.
  split.
  - apply Rmult_le_pos; [assumption |]. left. now apply Rinv_0_lt_compat.
  - apply (Rmult_le_reg_r (IZR n)); [assumption |].
    unfold Rdiv. rewrite Rmult_assoc, Rinv_l by lra. lra.
Qed.

Lemma fraction_increasing (n i j : Z) : (0 < n)%Z -> (i < j)%Z -> fraction n i < fraction n j.
Proof.
  intros Hn Hij. unfold fraction, Rdiv.
  apply Rmult_lt_compat_r.
  - apply Rinv_0_lt_compat. now apply IZR_lt.
  - now apply IZR_lt.
Qed.

Lemma waypoint_at_0 (start end_ : R * R) :
  waypoint_at start end_ 0 = (fst start, snd start, 100%Z).
Proof. unfold waypoint_at. do 2 f_equal; ring. Qed.

Lemma waypoint_at_1 (start end_ : R * R) :
  waypoint_at start end_ 1 = (fst end_, snd end_, 100%Z).
Proof. unfold waypoint_at. do 2 f_equal; ring. Qed.

(** C3, as the claim has it, fails for a negative spacing: from (0, 0) to
    (0, 180) at spacing -1 the generator returns normally, and the list it
    returns has no first and no last waypoint. *)
Lemma generate_waypoints_returns_no_endpoints :
  exists waypoints,
    Day3.generate_waypoints (0, 0) (0, 180) (-1) = Ok waypoints
    /\ nth_error waypoints 0 = None
    /\ nth_error waypoints (List.length waypoints - 1) = None.
Proof.
  exists []. split; [exact generate_waypoints_negative_spacing | split; reflexivity].
Qed.

(** C3 (amended): for a positive spacing, when the generator returns
    normally the first waypoint [waypoints[0]] has the start latitude and
    longitude and the last one [waypoints[-1]] has the end latitude and
    longitude. *)
Theorem generate_waypoints_endpoints (start end_ : R * R) (spacing : R)
    (waypoints : list waypoint) :
  Day3.generate_waypoints start end_ spacing = Ok waypoints ->
  0 < spacing ->
  nth_error waypoints 0 = Some (fst start, snd start, 100%Z)
  /\ nth_error waypoints (List.length waypoints - 1)
     = Some (fst end_, snd end_, 100%Z).
Proof.
  intros Hgen Hs.
  destruct (generate_waypoints_returns _ _ _ _ Hgen)
    as (d & n & Hd0 & _ & Hn & Hn0 & ->).
  assert (Hpos : (0 < n)%Z).
  { enough (0 <= n)%Z by lia. subst n. apply Zfloor_lub. simpl.
    apply Rmult_le_pos; [assumption |]. left. now apply Rinv_0_lt_compat. }
  rewrite length_map, py_range_length, !nth_error_map.
  rewrite !py_range_nth by lia. cbn [option_map].
  replace (Z.of_nat (Z.to_nat (n + 1) - 1)) with n by lia.
  change (Z.of_nat 0) with 0%Z.
  rewrite fraction_first, fraction_last, waypoint_at_0, waypoint_at_1 by assumption.
  split; reflexivity.
Qed.

Lemma generate_waypoints_endpoints_witness :
  nth_error [(0, 0, 100%Z); (0, 180, 100%Z)] 0 = Some (0, 0, 100%Z)
  /\ nth_error [(0, 0, 100%Z); (0, 180, 100%Z)] (2 - 1) = Some (0, 180, 100%Z).
Proof.
  apply (generate_waypoints_endpoints (0, 0) (0, 180) 19113000).
  - exact generate_waypoints_two_points.
  - lra.
Defined.

(** C9: when the generator returns normally, every waypoint of the list
    has altitude exactly 100. *)
Theorem generate_waypoints_altitude (start end_ : R * R) (spacing : R)
    (waypoints : list waypoint) :
  Day3.generate_waypoints start end_ spacing = Ok waypoints ->
  Forall (fun wp : waypoint => snd wp = 100%Z) waypoints.
Proof.
  intros Hgen.
  destruct (generate_waypoints_returns _ _ _ _ Hgen) as (d & n & _ & _ & _ & _ & ->).
  apply Forall_map, Forall_forall. intros i _. reflexivity.
Qed.

Lemma generate_waypoints_altitude_witness :
  Forall (fun wp : waypoint => snd wp = 100%Z) [(0, 0, 100%Z); (0, 180, 100%Z)].
Proof.
  apply (generate_waypoints_altitude (0, 0) (0, 180) 19113000).
  exact generate_waypoints_two_points.
Defined.

(** A blend with a fraction of the unit interval stays between its two
    ends. *)
Lemma blend_between (p q f : R) : 0 <= f <= 1 -> between p q (p + (q - p) * f).
Proof.
  intros [Hf0 Hf1]. unfold between, Rmin, Rmax.
  destruct (Rle_dec p q) as [Hpq | Hpq]; split; nra.
Qed.

Lemma fractions_sorted (n : Z) (a m : nat) :
  (0 < n)%Z ->
  StronglySorted Rlt (map (fraction n) (map Z.of_nat (seq a m))).
Proof.
  intros Hn. revert a.
  induction m as [| m IH]; intros a; cbn [seq map]; constructor.
  - apply IH.
  - rewrite map_map. apply Forall_map, Forall_forall.
    intros k Hk. apply in_seq in Hk.
    apply fraction_increasing; [assumption | lia].
Qed.

(** C10 (amended): when the generator returns normally, the point count
    [num_points] is the floor of distance / spacing and is not 0, and the
    waypoints are the blends of start and end at the fractions
    [i / num_points] of the indices 0 to [num_points] in order; every
    fraction lies in [0, 1] and the fractions increase strictly along the
    list.  Over the reals (in exact arithmetic) every latitude and
    longitude then lies between the start and the end value; in binary64
    each is the rounded blend, which rounding can put outside. *)
Theorem generate_waypoints_convex (start end_ : R * R) (spacing : R)
    (waypoints : list waypoint) :
  Day3.generate_waypoints start end_ spacing = Ok waypoints ->
  exists (d : R) (num_points : Z),
    Day3.haversine_distance (fst start) (snd start) (fst end_) (snd end_) = Ok d
    /\ num_points = Zfloor (d / spacing)
    /\ num_points <> 0%Z
    /\ let fs := map (fraction num_points) (Py.range (num_points + 1)) in
       waypoints = map (waypoint_at start end_) fs
       /\ Forall (fun f => 0 <= f <= 1) fs
       /\ StronglySorted Rlt fs
       /\ Forall (fun wp : waypoint =>
                    between (fst start) (fst end_) (fst (fst wp))
                    /\ between (snd start) (snd end_) (snd (fst wp)))
                 waypoints.
Proof.
  destruct (day3_haversine_total (fst start) (snd start) (fst end_) (snd end_))
    as (d & Hd & _).
  rewrite (generate_waypoints_cases _ _ _ _ Hd).
  destruct (Req_dec_T spacing 0) as [E | _]; [discriminate |].
  destruct (Z.eqb_spec (Zfloor (d / spacing)) 0) as [E | Hn0]; [discriminate |].
  intros [= <-]. exists d, (Zfloor (d / spacing)).
  set (n := Zfloor (d / spacing)) in *.
  split; [exact Hd |]. split; [reflexivity |]. split; [exact Hn0 |]. cbn zeta.
  assert (Hunit : Forall (fun f => 0 <= f <= 1)
                         (map (fraction n) (Py.range (n + 1)))).
  { apply Forall_map, Forall_forall. intros i Hi.
    apply py_range_bounds in Hi. apply fraction_unit; lia. }
  repeat split.
  - now rewrite map_map.
  - exact Hunit.
  - unfold Py.range.
    destruct (Z_lt_le_dec 0 n) as [Hpos | Hneg].
    + now apply fractions_sorted.
    + replace (Z.to_nat (n + 1)) with 0%nat by lia. constructor.
  - rewrite <- (map_map (fraction n) (waypoint_at start end_)).
    apply Forall_map. revert Hunit. apply Forall_impl.
    intros f Hf. unfold waypoint_at. cbn [fst snd].
    split; now apply blend_between.
Qed.

(** ** Texts, lines and fields *)

Lemma append_assoc (a b c : string) : ((a ++ b) ++ c = a ++ (b ++ c))%string.
Proof. induction a as [| x a IH]; cbn; [reflexivity | now rewrite IH]. Qed.

Lemma append_empty_r (a : string) : (a ++ EmptyString)%string = a.
Proof. induction a as [| x a IH]; cbn; [reflexivity | now rewrite IH]. Qed.

Lemma free_of_append (c : ascii) (a b : string) :
  free_of c (a ++ b) = free_of c a && free_of c b.
Proof.
  induction a as [| x a IH]; cbn; [reflexivity |].
  now rewrite IH, andb_assoc.
Qed.

Lemma lines_cons (l rest : string) :
  free_of "010"%char l = true ->
  lines (l ++ newline ++ rest) = l :: lines rest.
Proof.
  induction l as [| x l IH]; cbn [free_of append lines]; intros H.
  - reflexivity.
  - apply andb_prop in H as [Hx Hl].
    apply negb_true_iff in Hx. rewrite Hx.
    change (l ++ String "010"%char rest)%string with (l ++ newline ++ rest)%string.
    now rewrite (IH Hl).
Qed.

Lemma lines_unlines (ls : list string) :
  Forall (fun l => free_of "010"%char l = true) ls -> lines (unlines ls) = ls.
Proof.
  induction 1 as [| l ls Hl _ IH]; cbn [unlines]; [reflexivity |].
  now rewrite lines_cons, IH.
Qed.

Lemma split_single (sep : ascii) (f : string) :
  free_of sep f = true -> split sep f = [f].
Proof.
  induction f as [| x f IH]; cbn [free_of split]; intros H; [reflexivity |].
  apply andb_prop in H as [Hx Hf].
  apply negb_true_iff in Hx. now rewrite Hx, (IH Hf).
Qed.

Lemma split_cons (sep : ascii) (f rest : string) :
  free_of sep f = true ->
  split sep (f ++ String sep rest) = f :: split sep rest.
Proof.
  induction f as [| x f IH]; cbn [free_of append split]; intros H.
  - now rewrite Ascii.eqb_refl.
  - apply andb_prop in H as [Hx Hf].
    apply negb_true_iff in Hx. now rewrite Hx, (IH Hf).
Qed.

Lemma split_join (sep : ascii) (fs : list string) :
  fs <> [] ->
  Forall (fun f => free_of sep f = true) fs ->
  split sep (join sep fs) = fs.
Proof.
  intros Hne Hfs. induction Hfs as [| f fs Hf Hfs IH]; [contradiction |].
  destruct fs as [| g fs].
  - now apply split_single.
  - change (join sep (f :: g :: fs)) with (f ++ String sep (join sep (g :: fs)))%string.
    rewrite split_cons by assumption.
    f_equal. apply IH. discriminate.
Qed.

Lemma free_of_join (c sep : ascii) (fs : list string) :
  Ascii.eqb sep c = false ->
  Forall (fun f => free_of c f = true) fs ->
  free_of c (join sep fs) = true.
Proof.
  intros Hsep Hfs. induction Hfs as [| f fs Hf Hfs IH]; [reflexivity |].
  destruct fs as [| g fs]; [assumption |].
  change (join sep (f :: g :: fs)) with (f ++ String sep (join sep (g :: fs)))%string.
  rewrite free_of_append. cbn [free_of].
  now rewrite Hf, Hsep, IH.
Qed.

(** ** Decimal numerals *)

Lemma plain_String (c : ascii) (s : string) :
  Ascii.eqb c "009"%char = false -> Ascii.eqb c "010"%char = false ->
  plain s = true -> plain (String c s) = true.
Proof.
  unfold plain. cbn [free_of]. intros -> -> H.
  apply andb_prop in H as [-> ->]. reflexivity.
Qed.

Lemma string_of_uint_plain (d : Decimal.uint) : plain (NilEmpty.string_of_uint d) = true.
Proof.
  induction d; cbn [NilEmpty.string_of_uint];
    [reflexivity | apply plain_String; [reflexivity | reflexivity | exact IHd] ..].
Qed.

Lemma nilzero_string_of_uint_plain (d : Decimal.uint) :
  plain (NilZero.string_of_uint d) = true.
Proof.
  destruct d; [reflexivity | apply string_of_uint_plain ..].
Qed.

Lemma str_int_plain (i : Z) : plain (Py.str_int i) = true.
Proof.
  unfold Py.str_int, NilZero.string_of_int.
  destruct (Z.to_int i) as [d | d].
  - apply nilzero_string_of_uint_plain.
  - apply plain_String; [reflexivity | reflexivity |].
    apply nilzero_string_of_uint_plain.
Qed.

(** ** The file exporters *)

Lemma enumerate_length {A : Type} (xs : list A) :
  List.length (Py.enumerate xs) = List.length xs.
Proof.
  unfold Py.enumerate. rewrite length_combine, py_range_length. lia.
Qed.

Lemma combine_nth_error {A B : Type} (l : list A) (xs : list B) (k : nat)
    (a : A) (x : B) :
  nth_error l k = Some a -> nth_error xs k = Some x ->
  nth_error (combine l xs) k = Some (a, x).
Proof.
  revert l xs. induction k as [| k IH]; intros [| a' l] [| x' xs]; cbn;
    try discriminate.
  - now intros [= ->] [= ->].
  - apply IH.
Qed.

Lemma enumerate_nth {A : Type} (xs : list A) (k : nat) (x : A) :
  nth_error xs k = Some x -> nth_error (Py.enumerate xs) k = Some (Z.of_nat k, x).
Proof.
  intros Hx. unfold Py.enumerate.
  assert (Hk : (k < List.length xs)%nat) by (apply nth_error_Some; congruence).
  apply combine_nth_error; [| assumption].
  apply py_range_nth. lia.
Qed.

Lemma file_open_w (filename : string) (w : world) :
  file (open_w filename w) filename = Some EmptyString.
Proof. unfold file, open_w. cbn. now rewrite String.eqb_refl. Qed.

Lemma file_write (filename s : string) (w : world) (old : string) :
  file w filename = Some old ->
  file (write filename s w) filename = Some (old ++ s)%string.
Proof. unfold file, write. cbn. intros ->. now rewrite String.eqb_refl. Qed.

Lemma file_print (filename s : string) (w : world) :
  file (print s w) filename = file w filename.
Proof. reflexivity. Qed.

Section Exporters.

Variable repr_float : R -> string.

(** The text of a float holds neither a tab nor a newline. *)
Hypothesis repr_float_plain : forall x : R, plain (repr_float x) = true.

(** The record of a waypoint, without its newline. *)
Let record (iwp : Z * waypoint) : string :=
  join "009"%char (record_fields repr_float (fst iwp) (snd iwp)).

Lemma waypoint_line_record (i : Z) (wp : waypoint) :
  waypoint_line repr_float i wp = (record (i, wp) ++ newline)%string.
Proof.
  destruct wp as [[lat lon] alt].
  unfold record, waypoint_line, record_fields, tab. cbn [fst snd join].
  repeat (rewrite append_assoc; cbn [append]).
  reflexivity.
Qed.

Lemma record_fields_plain (i : Z) (wp : waypoint) :
  Forall (fun f => plain f = true) (record_fields repr_float i wp).
Proof.
  destruct wp as [[lat lon] alt]. unfold record_fields.
  repeat constructor; auto using str_int_plain.
Qed.

Lemma record_one_line (iwp : Z * waypoint) : free_of "010"%char (record iwp) = true.
Proof.
  apply free_of_join; [reflexivity |].
  eapply Forall_impl; [| apply record_fields_plain].
  intros f Hf. unfold plain in Hf. now apply andb_prop in Hf.
Qed.

Lemma record_fields_read (iwp : Z * waypoint) :
  fields (record iwp) = record_fields repr_float (fst iwp) (snd iwp).
Proof.
  apply split_join.
  - destruct iwp as [i [[lat lon] alt]]. discriminate.
  - eapply Forall_impl; [| apply record_fields_plain].
    intros f Hf. unfold plain in Hf. now apply andb_prop in Hf.
Qed.

(** The loop of writes appends the records in order. *)
Lemma write_loop (filename : string) (iwps : list (Z * waypoint)) (w : world)
    (old : string) :
  file w filename = Some old ->
  file (fold_left
          (fun w '(i, wp) => write filename (waypoint_line repr_float i wp) w)
          iwps w) filename
  = Some (old ++ unlines (map record iwps))%string.
Proof.
  revert w old. induction iwps as [| [i wp] iwps IH]; intros w old Hold; cbn [fold_left map unlines].
  - now rewrite append_empty_r.
  - rewrite (IH _ (old ++ waypoint_line repr_float i wp)%string)
      by now apply file_write.
    now rewrite waypoint_line_record, !append_assoc.
Qed.

(** The mission file either exporter leaves behind. *)
Lemma exported_text (waypoints : list waypoint) (filename : string) (w : world) :
  let text := unlines ("QGC WPL 110"%string :: map record (Py.enumerate waypoints)) in
  file (Day3.export_to_missionplanner repr_float waypoints filename w) filename
  = Some text
  /\ file (Backup.export_waypoints repr_float waypoints filename w) filename
     = Some text.
Proof.
  cbn zeta.
  unfold Day3.export_to_missionplanner, Backup.export_waypoints.
  rewrite !file_print.
  split.
  - erewrite write_loop
      by (apply file_write, file_open_w).
    change (EmptyString ++ "QGC WPL 110" ++ newline)%string
      with ("QGC WPL 110" ++ newline)%string.
    cbn [unlines]. now rewrite append_assoc.
  - erewrite write_loop
      by (apply file_write, file_open_w).
    change (EmptyString ++ "QGC WPL 110" ++ newline)%string
      with ("QGC WPL 110" ++ newline)%string.
    cbn [unlines]. now rewrite append_assoc.
Qed.

Lemma exported_lines (waypoints : list waypoint) :
  lines (unlines ("QGC WPL 110"%string :: map record (Py.enumerate waypoints)))
  = "QGC WPL 110"%string :: map record (Py.enumerate waypoints).
Proof.
  apply lines_unlines. constructor; [reflexivity |].
  apply Forall_map, Forall_forall. intros iwp _. apply record_one_line.
Qed.

(** C6: for a waypoint list of length N, either exporter leaves a file of
    exactly N + 1 lines, the header and one line per waypoint; for the
    empty list, the header alone. *)
Theorem export_line_count (waypoints : list waypoint) (filename : string)
    (w : world) :
  (exists text,
      file (Day3.export_to_missionplanner repr_float waypoints filename w) filename
      = Some text
      /\ List.length (lines text) = S (List.length waypoints)
      /\ (waypoints = [] -> lines text = ["QGC WPL 110"%string]))
  /\ (exists text,
         file (Backup.export_waypoints repr_float waypoints filename w) filename
         = Some text
         /\ List.length (lines text) = S (List.length waypoints)
         /\ (waypoints = [] -> lines text = ["QGC WPL 110"%string])).
Proof.
  destruct (exported_text waypoints filename w) as [Hday3 Hbackup].
  split; eexists; (split; [eassumption |]); rewrite exported_lines;
    (split; [cbn [List.length]; now rewrite length_map, enumerate_length
            | now intros ->]).
Qed.

Lemma exported_line_at (waypoints : list waypoint) (i : nat) (wp : waypoint) :
  nth_error waypoints i = Some wp ->
  nth_error ("QGC WPL 110"%string :: map record (Py.enumerate waypoints)) (S i)
  = Some (record (Z.of_nat i, wp)).
Proof.
  intros Hwp. cbn [nth_error].
  now rewrite nth_error_map, (enumerate_nth _ _ _ Hwp).
Qed.

(** C7: in the file either exporter leaves, the first line is the literal
    [QGC WPL 110], and the line after it at position [i] (from 0) is the
    12 tab-separated fields [i, 0, 3, 16, 0, 0, 0, 0, lat, lon, alt, 1] of
    the waypoint at list position [i]. *)
Theorem export_format (waypoints : list waypoint) (filename : string)
    (w : world) :
  (exists text,
      file (Day3.export_to_missionplanner repr_float waypoints filename w) filename
      = Some text
      /\ mission_format repr_float waypoints text)
  /\ (exists text,
         file (Backup.export_waypoints repr_float waypoints filename w) filename
         = Some text
         /\ mission_format repr_float waypoints text).
Proof.
  destruct (exported_text waypoints filename w) as [Hday3 Hbackup].
  assert (Hformat : mission_format repr_float waypoints
                      (unlines ("QGC WPL 110"%string
                                :: map record (Py.enumerate waypoints)))).
  { unfold mission_format. rewrite exported_lines. split; [reflexivity |].
    intros i wp Hwp. eexists. split.
    - exact (exported_line_at _ _ _ Hwp).
    - rewrite record_fields_read. reflexivity. }
  split; eexists; split; eassumption.
Qed.

End Exporters.

(** A run of both exporters on one waypoint, with a stand-in for the text
    of a float. *)
Lemma export_line_count_witness :
  let repr_float := fun _ : R => "0.0"%string in
  let w := mkWorld (fun _ => None) EmptyString in
  (exists text,
      file (Day3.export_to_missionplanner repr_float [(0, 0, 100%Z)] "m"%string w)
           "m"%string = Some text
      /\ List.length (lines text) = 2%nat
      /\ ([(0, 0, 100%Z)] = [] -> lines text = ["QGC WPL 110"%string]))
  /\ (exists text,
         file (Backup.export_waypoints repr_float [(0, 0, 100%Z)] "m"%string w)
              "m"%string = Some text
         /\ List.length (lines text) = 2%nat
         /\ ([(0, 0, 100%Z)] = [] -> lines text = ["QGC WPL 110"%string])).
Proof.
  apply (export_line_count (fun _ : R => "0.0"%string)).
  intros x. reflexivity.
Defined.

Lemma export_format_witness :
  let repr_float := fun _ : R => "0.0"%string in
  let w := mkWorld (fun _ => None) EmptyString in
  (exists text,
      file (Day3.export_to_missionplanner repr_float [(0, 0, 100%Z)] "m"%string w)
           "m"%string = Some text
      /\ mission_format repr_float [(0, 0, 100%Z)] text)
  /\ (exists text,
         file (Backup.export_waypoints repr_float [(0, 0, 100%Z)] "m"%string w)
              "m"%string = Some text
         /\ mission_format repr_float [(0, 0, 100%Z)] text).
Proof.
  apply (export_format (fun _ : R => "0.0"%string)).
  intros x. reflexivity.
Defined.

(** Three waypoints at altitude 50 through the backup script's exporter
    and its default file name, read back field by field (every float
    shown as the stand-in text). *)
Example export_waypoints_sample :
  let repr_float := fun _ : R => "35.0"%string in
  let w := mkWorld (fun _ => None) EmptyString in
  option_map (fun text => map fields (lines text))
    (file (Backup.export_waypoints_default repr_float
             [(35, 127, 50%Z); (35, 127, 50%Z); (35, 127, 50%Z)] w)
          "mission.waypoints"%string)
  = Some [["QGC WPL 110"];
          ["0"; "0"; "3"; "16"; "0"; "0"; "0"; "0"; "35.0"; "35.0"; "50"; "1"];
          ["1"; "0"; "3"; "16"; "0"; "0"; "0"; "0"; "35.0"; "35.0"; "50"; "1"];
          ["2"; "0"; "3"; "16"; "0"; "0"; "0"; "0"; "35.0"; "35.0"; "50"; "1"]]%string.
Proof. vm_compute. reflexivity. Qed.

(** * Further properties of the code *)

(** ** The distance calculator: range, meridians, symmetries *)

(** X1: a distance that either [haversine_distance] returns is never
    negative. *)
Theorem haversine_distance_nonnegative (lat1 lon1 lat2 lon2 d : R) :
  Day3.haversine_distance lat1 lon1 lat2 lon2 = Ok d
  \/ Backup.haversine_distance lat1 lon1 lat2 lon2 = Ok d ->
  0 <= d.
Proof.
  pose proof (hav_a_bounds lat1 lon1 lat2 lon2) as Ha.
  pose proof (atan2_first_quadrant (sqrt (hav_a lat1 lon1 lat2 lon2))
                (sqrt (1 - hav_a lat1 lon1 lat2 lon2))
                (sqrt_pos _) (sqrt_pos _)) as Hq.
  rewrite day3_haversine_unfold, backup_haversine_unfold.
  rewrite atan2_sqrt_asin in * by assumption.
  intros [[= <-] | [= <-]]; lra.
Qed.

Lemma haversine_distance_nonnegative_witness : 0 <= 6371000 * PI.
Proof.
  apply (haversine_distance_nonnegative 0 0 0 180).
  left. exact haversine_equator_half_turn.
Defined.

Lemma asin_sqrt_sin2 (u : R) : Rabs u <= PI / 2 -> asin (sqrt (sin u ^ 2)) = Rabs u.
Proof.
  assert (Hpos : forall v, 0 <= v <= PI / 2 -> asin (sqrt (sin v ^ 2)) = v).
  { intros v [Hv0 Hv1]. pose proof PI2_Rlt_PI.
    rewrite sqrt_pow2 by (apply sin_ge_0; lra).
    apply asin_sin. lra. }
  unfold Rabs. destruct (Rcase_abs u) as [Hneg | Hge]; intros Hu.
  - replace (sin u ^ 2) with (sin (- u) ^ 2) by (rewrite sin_neg; ring).
    apply Hpos. lra.
  - apply Hpos. lra.
Qed.

Lemma asin_le (x y : R) : 0 <= x -> x <= y -> y <= 1 -> asin x <= asin y.
Proof.
  intros Hx Hxy Hy.
  pose proof (asin_bound x) as [Hx1 Hx2]. pose proof (asin_bound y) as [Hy1 Hy2].
  apply sin_incr_0; try assumption.
  rewrite !sin_asin by lra. assumption.
Qed.

Lemma half_radians_abs (x : R) :
  Rabs (Py.radians x / 2) = Py.radians (Rabs x) / 2.
Proof.
  pose proof PI_RGT_0 as Hpi. unfold Py.radians, Rabs.
  destruct (Rcase_abs x) as [Hx | Hx];
    destruct (Rcase_abs (x * (PI / 180) / 2)) as [H | H]; try nra.
Qed.

Lemma half_radians_bound (x : R) : Rabs x <= 180 -> Py.radians (Rabs x) / 2 <= PI / 2.
Proof. pose proof PI_RGT_0. unfold Py.radians. nra. Qed.

Lemma haversine_meridian_value (lat1 lat2 lon : R) :
  Rabs (lat2 - lat1) <= 180 ->
  Day3.haversine_distance lat1 lon lat2 lon
  = Ok (6371000 * Py.radians (Rabs (lat2 - lat1)))
  /\ Backup.haversine_distance lat1 lon lat2 lon
     = Ok (6371000 * Py.radians (Rabs (lat2 - lat1))).
Proof.
  intros Hlat.
  assert (Ha : hav_a lat1 lon lat2 lon = sin (Py.radians (lat2 - lat1) / 2) ^ 2).
  { unfold hav_a. replace (Py.radians (lon - lon) / 2) with 0
      by (unfold Py.radians; field).
    rewrite sin_0. ring. }
  assert (Hasin : asin (sqrt (hav_a lat1 lon lat2 lon))
                  = Py.radians (Rabs (lat2 - lat1)) / 2).
  { rewrite Ha, asin_sqrt_sin2; rewrite half_radians_abs;
      [reflexivity | now apply half_radians_bound]. }
  rewrite day3_haversine_unfold, backup_haversine_unfold.
  rewrite atan2_sqrt_asin by apply hav_a_bounds.
  rewrite Hasin. split; f_equal; field.
Qed.

(** X2: over the reals (in exact arithmetic), along a meridian (equal
    longitudes, latitudes at most 180 degrees apart) the distance is the
    radius times the latitude difference in radians, in both
    implementations; the doubles the code returns are this value up to
    rounding. *)
Theorem haversine_distance_meridian (lat1 lat2 lon : R) :
  Rabs (lat2 - lat1) <= 180 ->
  Day3.haversine_distance lat1 lon lat2 lon
  = Ok (6371000 * Py.radians (Rabs (lat2 - lat1)))
  /\ Backup.haversine_distance lat1 lon lat2 lon
     = Ok (6371000 * Py.radians (Rabs (lat2 - lat1))).
Proof. apply haversine_meridian_value. Qed.

Lemma haversine_distance_meridian_witness :
  Day3.haversine_distance 10 20 11 20 = Ok (6371000 * Py.radians (Rabs (11 - 10)))
  /\ Backup.haversine_distance 10 20 11 20
     = Ok (6371000 * Py.radians (Rabs (11 - 10))).
Proof.
  apply (haversine_distance_meridian 10 11 20).
  replace (11 - 10) with 1 by ring. rewrite Rabs_R1. lra.
Defined.

Lemma day3_haversine_ge_meridian (lat1 lon1 lat2 lon2 d : R) :
  -90 <= lat1 <= 90 ->
  -90 <= lat2 <= 90 ->
  Day3.haversine_distance lat1 lon1 lat2 lon2 = Ok d ->
  6371000 * Py.radians (Rabs (lat2 - lat1)) <= d.
Proof.
  intros Hl1 Hl2. rewrite day3_haversine_unfold.
  rewrite atan2_sqrt_asin by apply hav_a_bounds.
  intros [= <-].
  pose proof (hav_a_bounds lat1 lon1 lat2 lon2) as [Ha0 Ha1].
  pose proof PI_RGT_0 as Hpi.
  assert (Hdiff : Rabs (lat2 - lat1) <= 180).
  { unfold Rabs. destruct (Rcase_abs (lat2 - lat1)); lra. }
  assert (Hcos : 0 <= cos (Py.radians lat1) * cos (Py.radians lat2)).
  { apply Rmult_le_pos; apply cos_ge_0; unfold Py.radians; nra. }
  assert (Hlow : sin (Py.radians (lat2 - lat1) / 2) ^ 2 <= hav_a lat1 lon1 lat2 lon2).
  { unfold hav_a.
    pose proof (pow2_ge_0 (sin (Py.radians (lon2 - lon1) / 2))). nra. }
  assert (Hasin : Py.radians (Rabs (lat2 - lat1)) / 2
                  <= asin (sqrt (hav_a lat1 lon1 lat2 lon2))).
  { rewrite <- half_radians_abs, <- asin_sqrt_sin2
      by (rewrite half_radians_abs; now apply half_radians_bound).
    apply asin_le.
    - apply sqrt_pos.
    - now apply sqrt_le_1_alt.
    - rewrite <- sqrt_1. apply sqrt_le_1_alt. lra. }
  lra.
Qed.

(** X3: over the reals (in exact arithmetic), for latitudes within
    [-90, 90] a distance that [haversine_distance] returns is at least the
    radius times the latitude difference in radians: a leg is never
    shorter than its north-south extent.  The doubles the code returns
    keep the bound up to rounding. *)
Theorem haversine_distance_latitude_bound (lat1 lon1 lat2 lon2 d : R) :
  -90 <= lat1 <= 90 ->
  -90 <= lat2 <= 90 ->
  Day3.haversine_distance lat1 lon1 lat2 lon2 = Ok d ->
  6371000 * Py.radians (Rabs (lat2 - lat1)) <= d.
Proof. apply day3_haversine_ge_meridian. Qed.

Lemma haversine_distance_latitude_bound_witness :
  6371000 * Py.radians (Rabs (50 - 10))
  <= 6371000 * (2 * Py.atan2 (sqrt (hav_a 10 20 50 80))
                             (sqrt (1 - hav_a 10 20 50 80))).
Proof.
  apply (haversine_distance_latitude_bound 10 20 50 80).
  - lra.
  - lra.
  - apply day3_haversine_unfold.
Defined.

(** X5: mirroring both points in the equator (negating both latitudes)
    leaves the distance unchanged. *)
Theorem haversine_distance_equator_mirror (lat1 lon1 lat2 lon2 : R) :
  Day3.haversine_distance (- lat1) lon1 (- lat2) lon2
  = Day3.haversine_distance lat1 lon1 lat2 lon2
  /\ Backup.haversine_distance (- lat1) lon1 (- lat2) lon2
     = Backup.haversine_distance lat1 lon1 lat2 lon2.
Proof.
  assert (Hmirror : hav_a (- lat1) lon1 (- lat2) lon2 = hav_a lat1 lon1 lat2 lon2).
  { unfold hav_a.
    replace (Py.radians (- lat2 - - lat1) / 2)
      with (- (Py.radians (lat2 - lat1) / 2)) by (unfold Py.radians; field).
    replace (Py.radians (- lat1)) with (- Py.radians lat1)
      by (unfold Py.radians; ring).
    replace (Py.radians (- lat2)) with (- Py.radians lat2)
      by (unfold Py.radians; ring).
    rewrite sin_neg, !cos_neg. ring. }
  rewrite !day3_haversine_unfold, !backup_haversine_unfold, Hmirror.
  split; reflexivity.
Qed.

(** ** The waypoint generator: faults, counts, spacing of the points *)

(** A normal return at a known distance. *)
Lemma generate_waypoints_returns_at (start end_ : R * R) (spacing d : R)
    (waypoints : list waypoint) :
  Day3.haversine_distance (fst start) (snd start) (fst end_) (snd end_) = Ok d ->
  Day3.generate_waypoints start end_ spacing = Ok waypoints ->
  0 <= d /\ spacing <> 0 /\ Zfloor (d / spacing) <> 0%Z
  /\ waypoints = map (fun i => waypoint_at start end_
                                 (fraction (Zfloor (d / spacing)) i))
                     (Py.range (Zfloor (d / spacing) + 1)).
Proof.
  intros Hd.
  destruct (day3_haversine_total (fst start) (snd start) (fst end_) (snd end_))
    as (d' & Hd' & Hd0 & _).
  rewrite Hd in Hd'. injection Hd' as <-.
  rewrite (generate_waypoints_cases _ _ _ _ Hd).
  destruct (Req_dec_T spacing 0) as [E | N]; [discriminate |].
  destruct (Z.eqb_spec (Zfloor (d / spacing)) 0) as [E | N']; [discriminate |].
  intros [= <-]. auto.
Qed.

(** X7: with the same start and end point the generator raises
    [ZeroDivisionError] whatever the spacing. *)
Theorem generate_waypoints_same_point_raises (p : R * R) (spacing : R) :
  Day3.generate_waypoints p p spacing = Raise ZeroDivisionError.
Proof.
  rewrite (generate_waypoints_cases p p spacing 0 (day3_haversine_same _ _)).
  destruct (Req_dec_T spacing 0) as [E | N]; [reflexivity |].
  replace (0 / spacing) with 0 by (unfold Rdiv; ring).
  now rewrite (ZfloorZ 0).
Qed.

(** X8: a normal return never holds exactly one waypoint: for a negative
    spacing the list is empty, for a positive one it has two waypoints or
    more. *)
Theorem generate_waypoints_never_single (start end_ : R * R) (spacing : R)
    (waypoints : list waypoint) :
  Day3.generate_waypoints start end_ spacing = Ok waypoints ->
  (spacing < 0 /\ waypoints = [])
  \/ (0 < spacing /\ (2 <= List.length waypoints)%nat).
Proof.
  intros Hgen.
  destruct (generate_waypoints_returns _ _ _ _ Hgen)
    as (d & n & Hd0 & Hs & Hn & Hn0 & ->).
  pose proof (Zfloor_bound (d / spacing)) as [Hlo Hhi]. rewrite <- Hn in Hlo, Hhi.
  destruct (Rlt_le_dec 0 spacing) as [Hpos | Hneg].
  - right. split; [assumption |].
    assert (0 <= n)%Z.
    { subst n. apply Zfloor_lub. simpl.
      apply Rmult_le_pos; [assumption |]. left. now apply Rinv_0_lt_compat. }
    rewrite length_map, py_range_length. lia.
  - left. assert (Hs' : spacing < 0) by lra. split; [assumption |].
    assert (Hinv : / spacing < 0) by now apply Rinv_lt_0_compat.
    assert (n <= 0)%Z.
    { apply le_IZR. unfold Rdiv in Hlo. nra. }
    now rewrite py_range_nonpos by lia.
Qed.

Lemma generate_waypoints_never_single_witness :
  (19113000 < 0 /\ [(0, 0, 100%Z); (0, 180, 100%Z)] = [])
  \/ (0 < 19113000
      /\ (2 <= List.length [(0%R, 0%R, 100%Z); (0%R, 180%R, 100%Z)])%nat).
Proof.
  apply (generate_waypoints_never_single (0, 0) (0, 180) 19113000).
  exact generate_waypoints_two_points.
Defined.

Lemma range_length_IZR (n : Z) :
  (0 <= n)%Z -> INR (List.length (Py.range (n + 1))) = IZR n + 1.
Proof.
  intros Hn. rewrite py_range_length, INR_IZR_INZ, Z2Nat.id, plus_IZR by lia.
  reflexivity.
Qed.

(** X9: for a positive spacing, a returned list of L waypoints brackets
    the distance: (L - 1) * spacing <= distance < L * spacing. *)
Theorem generate_waypoints_count_brackets_distance (start end_ : R * R)
    (spacing d : R) (waypoints : list waypoint) :
  Day3.haversine_distance (fst start) (snd start) (fst end_) (snd end_) = Ok d ->
  Day3.generate_waypoints start end_ spacing = Ok waypoints ->
  0 < spacing ->
  (INR (List.length waypoints) - 1) * spacing <= d
  /\ d < INR (List.length waypoints) * spacing.
Proof.
  intros Hd Hgen Hs.
  destruct (generate_waypoints_returns_at _ _ _ _ _ Hd Hgen) as (Hd0 & _ & Hn0 & ->).
  pose proof (Zfloor_bound (d / spacing)) as [Hlo Hhi].
  assert (Hn : (0 <= Zfloor (d / spacing))%Z).
  { apply Zfloor_lub. simpl.
    apply Rmult_le_pos; [assumption |]. left. now apply Rinv_0_lt_compat. }
  rewrite length_map, range_length_IZR by assumption.
  assert (Hq : d = d / spacing * spacing) by (field; lra).
  set (q := d / spacing) in *. clearbody q. subst d.
  split; nra.
Qed.

Lemma generate_waypoints_count_brackets_distance_witness :
  (INR (List.length [(0, 0, 100%Z); (0, 180, 100%Z)]) - 1) * 19113000
  <= 6371000 * PI
  /\ 6371000 * PI
     < INR (List.length [(0, 0, 100%Z); (0, 180, 100%Z)]) * 19113000.
Proof.
  apply (generate_waypoints_count_brackets_distance (0, 0) (0, 180)).
  - exact haversine_equator_half_turn.
  - exact generate_waypoints_two_points.
  - lra.
Defined.

(** X10: the waypoints are evenly spaced in latitude and in longitude:
    from each waypoint to the next both change by the whole difference
    divided by the number of steps, which is the list's length less one. *)
Theorem generate_waypoints_even_steps (start end_ : R * R) (spacing : R)
    (waypoints : list waypoint) (i : nat) (wp wp' : waypoint) :
  Day3.generate_waypoints start end_ spacing = Ok waypoints ->
  nth_error waypoints i = Some wp ->
  nth_error waypoints (S i) = Some wp' ->
  fst (fst wp') - fst (fst wp)
  = (fst end_ - fst start) / (INR (List.length waypoints) - 1)
  /\ snd (fst wp') - snd (fst wp)
     = (snd end_ - snd start) / (INR (List.length waypoints) - 1).
Proof.
  intros Hgen Hwp Hwp'.
  destruct (generate_waypoints_returns _ _ _ _ Hgen)
    as (d & n & _ & _ & _ & Hn0 & ->).
  assert (Hlen : (S i < Z.to_nat (n + 1))%nat).
  { rewrite <- py_range_length, <- (length_map
      (fun i => waypoint_at start end_ (fraction n i))).
    apply nth_error_Some. congruence. }
  rewrite length_map, range_length_IZR by lia.
  rewrite nth_error_map, py_range_nth in Hwp, Hwp' by lia.
  rewrite Nat2Z.inj_succ in Hwp'. unfold Z.succ in Hwp'.
  cbn [option_map] in Hwp, Hwp'.
  injection Hwp as <-. injection Hwp' as <-.
  unfold waypoint_at, fraction. cbn [fst snd].
  rewrite plus_IZR.
  assert (IZR n <> 0) by now apply not_0_IZR.
  split; field; lra.
Qed.

Lemma generate_waypoints_even_steps_witness :
  fst (fst (0, 180, 100%Z)) - fst (fst (0, 0, 100%Z))
  = (fst (0, 180) - fst (0, 0))
    / (INR (List.length [(0, 0, 100%Z); (0, 180, 100%Z)]) - 1)
  /\ snd (fst (0, 180, 100%Z)) - snd (fst (0, 0, 100%Z))
     = (snd (0, 180) - snd (0, 0))
       / (INR (List.length [(0, 0, 100%Z); (0, 180, 100%Z)]) - 1).
Proof.
  apply (generate_waypoints_even_steps (0, 0) (0, 180) 19113000
           [(0, 0, 100%Z); (0, 180, 100%Z)] 0).
  - exact generate_waypoints_two_points.
  - reflexivity.
  - reflexivity.
Defined.

Lemma day3_haversine_swap (lat1 lon1 lat2 lon2 d : R) :
  Day3.haversine_distance lat1 lon1 lat2 lon2 = Ok d ->
  Day3.haversine_distance lat2 lon2 lat1 lon1 = Ok d.
Proof.
  rewrite !day3_haversine_unfold. now rewrite (hav_a_sym lat2 lon2 lat1 lon1).
Qed.

Lemma waypoint_at_reverse (start end_ : R * R) (n i : Z) :
  n <> 0%Z ->
  waypoint_at end_ start (fraction n i)
  = waypoint_at start end_ (fraction n (n - i)).
Proof.
  intros Hn. unfold waypoint_at, fraction. rewrite minus_IZR.
  assert (IZR n <> 0) by now apply not_0_IZR.
  do 2 f_equal; field; assumption.
Qed.

Lemma blend_list_reverse (start end_ : R * R) (n : Z) :
  n <> 0%Z ->
  map (fun i => waypoint_at end_ start (fraction n i)) (Py.range (n + 1))
  = rev (map (fun i => waypoint_at start end_ (fraction n i)) (Py.range (n + 1))).
Proof.
  intros Hn. apply nth_error_ext. intros k.
  rewrite nth_error_rev, length_map, py_range_length, !nth_error_map.
  destruct (Nat.ltb_spec k (Z.to_nat (n + 1))) as [Hk | Hk].
  - rewrite !py_range_nth by lia. cbn [option_map]. f_equal.
    rewrite waypoint_at_reverse by assumption.
    do 2 f_equal. lia.
  - replace (nth_error (Py.range (n + 1)) k) with (@None Z); [reflexivity |].
    symmetry. apply nth_error_None. rewrite py_range_length. lia.
Qed.

(** X11: planning the leg in the other direction gives the same waypoints
    in reverse order. *)
Theorem generate_waypoints_reverse (start end_ : R * R) (spacing : R)
    (waypoints : list waypoint) :
  Day3.generate_waypoints start end_ spacing = Ok waypoints ->
  Day3.generate_waypoints end_ start spacing = Ok (rev waypoints).
Proof.
  intros Hgen.
  destruct (day3_haversine_total (fst start) (snd start) (fst end_) (snd end_))
    as (d & Hd & _).
  destruct (generate_waypoints_returns_at _ _ _ _ _ Hd Hgen) as (_ & Hs & Hn & ->).
  rewrite (generate_waypoints_cases _ _ _ _ (day3_haversine_swap _ _ _ _ _ Hd)).
  destruct (Req_dec_T spacing 0) as [E | _]; [contradiction |].
  destruct (Z.eqb_spec (Zfloor (d / spacing)) 0) as [E | _]; [contradiction |].
  f_equal. now apply blend_list_reverse.
Qed.

Lemma generate_waypoints_reverse_witness :
  Day3.generate_waypoints (0, 180) (0, 0) 19113000
  = Ok (rev [(0, 0, 100%Z); (0, 180, 100%Z)]).
Proof.
  apply (generate_waypoints_reverse (0, 0) (0, 180) 19113000).
  exact generate_waypoints_two_points.
Defined.

(** X12: over the same leg a larger positive spacing never gives more
    waypoints. *)
Theorem generate_waypoints_spacing_monotone (start end_ : R * R)
    (spacing spacing' : R) (waypoints waypoints' : list waypoint) :
  0 < spacing <= spacing' ->
  Day3.generate_waypoints start end_ spacing = Ok waypoints ->
  Day3.generate_waypoints start end_ spacing' = Ok waypoints' ->
  (List.length waypoints' <= List.length waypoints)%nat.
Proof.
  intros [Hs Hss] Hgen Hgen'.
  destruct (day3_haversine_total (fst start) (snd start) (fst end_) (snd end_))
    as (d & Hd & Hd0 & _).
  destruct (generate_waypoints_returns_at _ _ _ _ _ Hd Hgen) as (_ & _ & _ & ->).
  destruct (generate_waypoints_returns_at _ _ _ _ _ Hd Hgen') as (_ & _ & _ & ->).
  rewrite !length_map, !py_range_length.
  enough (Zfloor (d / spacing') <= Zfloor (d / spacing))%Z by lia.
  apply Zfloor_le. unfold Rdiv. apply Rmult_le_compat_l; [assumption |].
  apply Rinv_le_contravar; assumption.
Qed.

(** ** The file exporters: what they change and what they keep *)

Lemma str_int_inj (a b : Z) : Py.str_int a = Py.str_int b -> a = b.
Proof.
  assert (Hread : forall z, NilZero.int_of_string (Py.str_int z) = Some (Z.to_int z)).
  { intros z. apply NilZero.isi; destruct z; cbn; try discriminate;
      intros [= E]; now apply (DecimalPos.Unsigned.to_uint_nonnil p). }
  intros H. pose proof (Hread a) as Ha. rewrite H, Hread in Ha.
  injection Ha as Ha. rewrite <- (DecimalZ.of_to a), <- (DecimalZ.of_to b).
  now rewrite Ha.
Qed.

Lemma file_open_w_other (filename name : string) (w : world) :
  name <> filename -> file (open_w filename w) name = file w name.
Proof.
  intros Hne. unfold file, open_w. cbn.
  now apply String.eqb_neq in Hne as ->.
Qed.

Lemma file_write_other (filename name s : string) (w : world) :
  name <> filename -> file (write filename s w) name = file w name.
Proof.
  intros Hne. unfold file, write. cbn.
  now apply String.eqb_neq in Hne as ->.
Qed.

Section ExporterEffects.

Variable repr_float : R -> string.

(** The loop of writes, as both exporters run it. *)
Let write_all (filename : string) (iwps : list (Z * waypoint)) (w : world) : world :=
  fold_left (fun w '(i, wp) => write filename (waypoint_line repr_float i wp) w)
            iwps w.

Lemma write_all_other (filename name : string) (iwps : list (Z * waypoint))
    (w : world) :
  name <> filename -> file (write_all filename iwps w) name = file w name.
Proof.
  intros Hne. revert w.
  induction iwps as [| [i wp] iwps IH]; intros w; [reflexivity |].
  unfold write_all in *. cbn [fold_left]. rewrite IH.
  now apply file_write_other.
Qed.

Lemma write_all_stdout (filename : string) (iwps : list (Z * waypoint))
    (w : world) :
  stdout (write_all filename iwps w) = stdout w.
Proof.
  revert w. induction iwps as [| [i wp] iwps IH]; intros w; [reflexivity |].
  unfold write_all in *. cbn [fold_left]. now rewrite IH.
Qed.

(** The two exporters leave the same files. *)
Lemma exporters_same_files_aux (waypoints : list waypoint)
    (filename name : string) (w : world) :
  file (Day3.export_to_missionplanner repr_float waypoints filename w) name
  = file (Backup.export_waypoints repr_float waypoints filename w) name.
Proof. reflexivity. Qed.

Lemma export_keeps_other_files (waypoints : list waypoint)
    (filename name : string) (w : world) :
  name <> filename ->
  file (Day3.export_to_missionplanner repr_float waypoints filename w) name
  = file w name
  /\ file (Backup.export_waypoints repr_float waypoints filename w) name
     = file w name.
Proof.
  intros Hne.
  assert (H : file (write_all filename (Py.enumerate waypoints)
                      (write filename ("QGC WPL 110" ++ newline)%string
                         (open_w filename w))) name = file w name).
  { rewrite write_all_other, file_write_other by assumption.
    now apply file_open_w_other. }
  split; exact H.
Qed.

(** X13: an exporter changes no file but the one it is given the name
    of. *)
Theorem export_other_files_untouched (waypoints : list waypoint)
    (filename name : string) (w : world) :
  name <> filename ->
  file (Day3.export_to_missionplanner repr_float waypoints filename w) name
  = file w name
  /\ file (Backup.export_waypoints repr_float waypoints filename w) name
     = file w name.
Proof. apply export_keeps_other_files. Qed.

(** X14: an exporter replaces the file: what the file held before,
    another mission included, leaves no trace in it. *)
Theorem export_overwrites (waypoints waypoints' : list waypoint)
    (filename : string) (w : world) :
  file (Day3.export_to_missionplanner repr_float waypoints' filename
          (Day3.export_to_missionplanner repr_float waypoints filename w))
       filename
  = file (Day3.export_to_missionplanner repr_float waypoints' filename w) filename
  /\ file (Backup.export_waypoints repr_float waypoints' filename
             (Backup.export_waypoints repr_float waypoints filename w))
          filename
     = file (Backup.export_waypoints repr_float waypoints' filename w) filename.
Proof.
  split.
  - destruct (exported_text repr_float waypoints' filename w) as [-> _].
    now destruct (exported_text repr_float waypoints' filename
                    (Day3.export_to_missionplanner repr_float waypoints filename w))
      as [-> _].
  - destruct (exported_text repr_float waypoints' filename w) as [_ ->].
    now destruct (exported_text repr_float waypoints' filename
                    (Backup.export_waypoints repr_float waypoints filename w))
      as [_ ->].
Qed.

(** X15: an exporter adds one line to the console, after what was there,
    and the line reports the length of the list and the file name. *)
Theorem export_console_line (waypoints : list waypoint) (filename : string)
    (w : world) :
  stdout (Day3.export_to_missionplanner repr_float waypoints filename w)
  = (stdout w ++ check_mark ++ " Saved "
     ++ Py.str_int (Z.of_nat (List.length waypoints))
     ++ " waypoints to " ++ filename ++ newline)%string
  /\ stdout (Backup.export_waypoints repr_float waypoints filename w)
     = (stdout w ++ "[+] Exported "
        ++ Py.str_int (Z.of_nat (List.length waypoints))
        ++ " waypoints " ++ right_arrow ++ " " ++ filename ++ newline)%string.
Proof.
  unfold Day3.export_to_missionplanner, Backup.export_waypoints, print.
  cbn [stdout].
  pose proof (write_all_stdout filename (Py.enumerate waypoints)
                (write filename ("QGC WPL 110" ++ newline)%string
                   (open_w filename w))) as H.
  unfold write_all in H. cbn [stdout write open_w] in H.
  split.
  - rewrite H. now rewrite !append_assoc.
  - etransitivity; [apply (f_equal (fun s => (s ++ _)%string) H) |].
    now rewrite !append_assoc.
Qed.

End ExporterEffects.

Lemma export_other_files_untouched_witness :
  let repr_float := fun _ : R => "0.0"%string in
  let w := mkWorld (fun _ => None) EmptyString in
  file (Day3.export_to_missionplanner repr_float [(0, 0, 100%Z)] "m"%string w)
       "n"%string = file w "n"%string
  /\ file (Backup.export_waypoints repr_float [(0, 0, 100%Z)] "m"%string w)
          "n"%string = file w "n"%string.
Proof.
  apply (export_other_files_untouched (fun _ : R => "0.0"%string)).
  discriminate.
Defined.

Section ExportedFile.

Variable repr_float : R -> string.

Hypothesis repr_float_plain : forall x : R, plain (repr_float x) = true.

(** X16: the file an exporter leaves is made of complete lines: putting
    a newline after each of its lines gives the file back, so the last
    record too ends with a newline. *)
Theorem export_complete_lines (waypoints : list waypoint) (filename : string)
    (w : world) :
  (exists text,
      file (Day3.export_to_missionplanner repr_float waypoints filename w) filename
      = Some text
      /\ unlines (lines text) = text)
  /\ (exists text,
         file (Backup.export_waypoints repr_float waypoints filename w) filename
         = Some text
         /\ unlines (lines text) = text).
Proof.
  destruct (exported_text repr_float waypoints filename w) as [Hday3 Hbackup].
  split; eexists; (split; [eassumption |]);
    now rewrite (exported_lines repr_float repr_float_plain).
Qed.

(** X17: the file keeps what it was given: two waypoint lists that an
    exporter writes to the same text have the same length, and at each
    position the same altitude and the same text of latitude and of
    longitude. *)
Theorem export_lossless (waypoints waypoints' : list waypoint)
    (filename : string) (w w' : world) :
  file (Day3.export_to_missionplanner repr_float waypoints filename w) filename
  = file (Day3.export_to_missionplanner repr_float waypoints' filename w') filename ->
  List.length waypoints = List.length waypoints'
  /\ forall (i : nat) (lat lon lat' lon' : R) (alt alt' : Z),
       nth_error waypoints i = Some (lat, lon, alt) ->
       nth_error waypoints' i = Some (lat', lon', alt') ->
       repr_float lat = repr_float lat'
       /\ repr_float lon = repr_float lon'
       /\ alt = alt'.
Proof.
  destruct (exported_text repr_float waypoints filename w) as [-> _].
  destruct (exported_text repr_float waypoints' filename w') as [-> _].
  intros Htext. apply (f_equal (option_map lines)) in Htext.
  cbn [option_map] in Htext.
  rewrite !(exported_lines repr_float repr_float_plain) in Htext.
  injection Htext as Hrecords.
  split.
  - apply (f_equal (@List.length string)) in Hrecords.
    now rewrite !length_map, !enumerate_length in Hrecords.
  - intros i lat lon lat' lon' alt alt' Hwp Hwp'.
    assert (Hrecord :
              fields (join "009"%char
                        (record_fields repr_float (Z.of_nat i) (lat, lon, alt)))
              = fields (join "009"%char
                          (record_fields repr_float (Z.of_nat i) (lat', lon', alt')))).
    { apply (f_equal (fun l => nth_error l i)) in Hrecords.
      rewrite !nth_error_map in Hrecords.
      rewrite (enumerate_nth _ _ _ Hwp), (enumerate_nth _ _ _ Hwp') in Hrecords.
      cbn [option_map] in Hrecords. injection Hrecords as Hrecords.
      f_equal. exact Hrecords. }
    pose proof (record_fields_read repr_float repr_float_plain
                  (Z.of_nat i, (lat, lon, alt))) as Hread.
    pose proof (record_fields_read repr_float repr_float_plain
                  (Z.of_nat i, (lat', lon', alt'))) as Hread'.
    cbn [fst snd] in Hread, Hread'.
    rewrite Hread, Hread' in Hrecord. unfold record_fields in Hrecord.
    injection Hrecord as Hlat Hlon Halt.
    auto using str_int_inj.
Qed.

End ExportedFile.

Lemma export_complete_lines_witness :
  let repr_float := fun _ : R => "0.0"%string in
  let w := mkWorld (fun _ => None) EmptyString in
  (exists text,
      file (Day3.export_to_missionplanner repr_float [(0, 0, 100%Z)] "m"%string w)
           "m"%string = Some text
      /\ unlines (lines text) = text)
  /\ (exists text,
         file (Backup.export_waypoints repr_float [(0, 0, 100%Z)] "m"%string w)
              "m"%string = Some text
         /\ unlines (lines text) = text).
Proof.
  apply (export_complete_lines (fun _ : R => "0.0"%string)).
  intros x. reflexivity.
Defined.

Lemma export_lossless_witness :
  let repr_float := fun _ : R => "0.0"%string in
  let w := mkWorld (fun _ => None) EmptyString in
  List.length [(0, 0, 100%Z)] = List.length [(1, 1, 100%Z)]
  /\ forall (i : nat) (lat lon lat' lon' : R) (alt alt' : Z),
       nth_error [(0, 0, 100%Z)] i = Some (lat, lon, alt) ->
       nth_error [(1, 1, 100%Z)] i = Some (lat', lon', alt') ->
       repr_float lat = repr_float lat'
       /\ repr_float lon = repr_float lon'
       /\ alt = alt'.
Proof.
  apply (export_lossless (fun _ : R => "0.0"%string)
           (fun x => eq_refl) [(0, 0, 100%Z)] [(1, 1, 100%Z)] "m"%string
           (mkWorld (fun _ => None) EmptyString)
           (mkWorld (fun _ => None) EmptyString)).
  reflexivity.
Defined.

(** ** The scripts run as programs *)

Lemma blend_list_endpoints (start end_ : R * R) (n : Z) :
  (0 < n)%Z ->
  let waypoints := map (fun i => waypoint_at start end_ (fraction n i))
                       (Py.range (n + 1)) in
  nth_error waypoints 0 = Some (fst start, snd start, 100%Z)
  /\ nth_error waypoints (List.length waypoints - 1)
     = Some (fst end_, snd end_, 100%Z).
Proof.
  intros Hn. cbn zeta.
  rewrite length_map, py_range_length, !nth_error_map.
  rewrite !py_range_nth by lia. cbn [option_map].
  replace (Z.of_nat (Z.to_nat (n + 1) - 1)) with n by lia.
  change (Z.of_nat 0) with 0%Z.
  rewrite fraction_first, fraction_last, waypoint_at_0, waypoint_at_1 by lia.
  split; reflexivity.
Qed.

(** X18: run as a program, export_waypoints_day3.py does not meet the
    division by zero: from any world the generator returns at least 8
    waypoints from San Francisco to Los Angeles, the first at the start
    and the last at the end, and the run ends with their export to
    mission_day3.waypoints. *)
Theorem day3_main_returns (repr_float : R -> string) (w : world) :
  exists waypoints : list waypoint,
    Day3.main repr_float w
    = Ok (Day3.export_to_missionplanner repr_float waypoints
            "mission_day3.waypoints"%string w)
    /\ (8 <= List.length waypoints)%nat
    /\ nth_error waypoints 0 = Some (37.7749, -122.4194, 100%Z)
    /\ nth_error waypoints (List.length waypoints - 1)
       = Some (34.0522, -118.2437, 100%Z).
Proof.
  destruct (day3_haversine_total 37.7749 (-122.4194) 34.0522 (-118.2437))
    as (d & Hd & _).
  assert (Hfar : 7 * 50000 <= d).
  { assert (Hlat1 : -90 <= 37.7749 <= 90) by lra.
    assert (Hlat2 : -90 <= 34.0522 <= 90) by lra.
    pose proof (day3_haversine_ge_meridian _ _ _ _ _ Hlat1 Hlat2 Hd) as Hlow.
    rewrite Rabs_left in Hlow by lra.
    unfold Py.radians in Hlow. pose proof PI_gt_3. lra. }
  assert (Hn : (7 <= Zfloor (d / 50000))%Z).
  { apply Zfloor_lub. lra. }
  unfold Day3.main, Day3.export_to_missionplanner_default.
  rewrite (generate_waypoints_cases (37.7749, -122.4194) (34.0522, -118.2437)
             50000 d Hd).
  destruct (Req_dec_T 50000 0) as [E | _]; [lra |].
  destruct (Z.eqb_spec (Zfloor (d / 50000)) 0) as [E | _]; [lia |].
  cbn [bind]. eexists. split; [reflexivity |]. split.
  - rewrite length_map, py_range_length. lia.
  - apply (blend_list_endpoints (37.7749, -122.4194) (34.0522, -118.2437)). lia.
Qed.

(** The files an exporter leaves depend on the files it finds other than
    its own, and on nothing else of the world. *)
Lemma export_files_determined (repr_float : R -> string)
    (waypoints : list waypoint) (filename name : string) (w w' : world) :
  (forall n, n <> filename -> file w n = file w' n) ->
  file (Day3.export_to_missionplanner repr_float waypoints filename w) name
  = file (Day3.export_to_missionplanner repr_float waypoints filename w') name.
Proof.
  intros Hsame. destruct (String.eqb_spec name filename) as [-> | Hne].
  - destruct (exported_text repr_float waypoints filename w) as [-> _].
    now destruct (exported_text repr_float waypoints filename w') as [-> _].
  - destruct (export_keeps_other_files repr_float waypoints filename name w Hne)
      as [-> _].
    destruct (export_keeps_other_files repr_float waypoints filename name w' Hne)
      as [-> _].
    now apply Hsame.
Qed.

(** X19: running either script a second time changes no file: the
    second run of export_waypoints_day3.py returns as the first did, and
    after it, as after a second run of the backup script, every file holds
    what it held after the first run. *)
Theorem main_rerun_same_files (repr_float : R -> string) (w : world) :
  (forall w', Day3.main repr_float w = Ok w' ->
     exists w'', Day3.main repr_float w' = Ok w''
                 /\ forall name, file w'' name = file w' name)
  /\ (forall name,
        file (Backup.main repr_float (Backup.main repr_float w)) name
        = file (Backup.main repr_float w) name).
Proof.
  split.
  - intros w'. unfold Day3.main.
    destruct (Day3.generate_waypoints (37.7749, -122.4194) (34.0522, -118.2437) 50000)
      as [waypoints | e]; cbn [bind]; [| discriminate].
    intros [= <-]. eexists. split; [reflexivity |].
    intros name. apply export_files_determined.
    intros n Hne. now apply export_keeps_other_files.
  - intros name. unfold Backup.main, Backup.export_waypoints_default.
    rewrite <- !(exporters_same_files_aux repr_float).
    apply export_files_determined.
    intros n Hne. now apply export_keeps_other_files.
Qed.

(** ** Runs along a meridian *)

Lemma PI_le_68_21 : PI <= 68 / 21.
Proof.
  destruct (PI_2_3_7_ineq 0) as [_ H].
  unfold sum_f_R0, tg_alt, PI_2_3_7_tg, Ratan_seq in H. simpl in H. lra.
Qed.

Lemma haversine_quarter_meridian :
  Day3.haversine_distance 0 0 90 0 = Ok (6371000 * (PI / 2)).
Proof.
  destruct (haversine_meridian_value 0 90 0) as [-> _].
  - rewrite Rabs_pos_eq; lra.
  - f_equal. unfold Py.radians. rewrite Rabs_pos_eq by lra. field.
Qed.

(** From the equator to the pole at a spacing of 4459.7 km: the point
    count is 2 and the waypoints are at latitudes 0, 45 and 90. *)
Lemma generate_waypoints_three_points :
  Day3.generate_waypoints (0, 0) (90, 0) 4459700
  = Ok [(0, 0, 100%Z); (45, 0, 100%Z); (90, 0, 100%Z)].
Proof.
  rewrite (generate_waypoints_cases (0, 0) (90, 0) _ _ haversine_quarter_meridian).
  destruct (Req_dec_T 4459700 0) as [E | _]; [lra |].
  assert (Hn : Zfloor (6371000 * (PI / 2) / 4459700) = 2%Z).
  { apply Zfloor_eq. pose proof PI_gt_3. pose proof PI_4. lra. }
  rewrite Hn. cbn [Z.eqb]. change (Py.range (2 + 1)) with [0%Z; 1%Z; 2%Z].
  cbn [map]. unfold waypoint_at, fraction. cbn [fst snd].
  do 2 f_equal; [| f_equal; [| f_equal]]; do 2 f_equal; field.
Qed.

(** The same leg at a spacing of 7645.2 km: the point count is 1. *)
Lemma generate_waypoints_pole_two_points :
  Day3.generate_waypoints (0, 0) (90, 0) 7645200
  = Ok [(0, 0, 100%Z); (90, 0, 100%Z)].
Proof.
  rewrite (generate_waypoints_cases (0, 0) (90, 0) _ _ haversine_quarter_meridian).
  destruct (Req_dec_T 7645200 0) as [E | _]; [lra |].
  assert (Hn : Zfloor (6371000 * (PI / 2) / 7645200) = 1%Z).
  { apply Zfloor_eq. pose proof PI_gt_3. pose proof PI_4. lra. }
  rewrite Hn. cbn [Z.eqb]. change (Py.range (1 + 1)) with [0%Z; 1%Z].
  cbn [map]. unfold waypoint_at, fraction. cbn [fst snd].
  do 2 f_equal; [| f_equal]; do 2 f_equal; field.
Qed.

Lemma generate_waypoints_convex_witness :
  exists (d : R) (num_points : Z),
    Day3.haversine_distance 0 0 90 0 = Ok d
    /\ num_points = Zfloor (d / 4459700)
    /\ num_points <> 0%Z
    /\ let fs := map (fraction num_points) (Py.range (num_points + 1)) in
       [(0, 0, 100%Z); (45, 0, 100%Z); (90, 0, 100%Z)]
       = map (waypoint_at (0, 0) (90, 0)) fs
       /\ Forall (fun f => 0 <= f <= 1) fs
       /\ StronglySorted Rlt fs
       /\ Forall (fun wp : waypoint =>
                    between 0 90 (fst (fst wp)) /\ between 0 0 (snd (fst wp)))
                 [(0, 0, 100%Z); (45, 0, 100%Z); (90, 0, 100%Z)].
Proof.
  apply (generate_waypoints_convex (0, 0) (90, 0) 4459700).
  exact generate_waypoints_three_points.
Defined.

Lemma generate_waypoints_spacing_monotone_witness :
  (List.length [(0%R, 0%R, 100%Z); (90%R, 0%R, 100%Z)]
   <= List.length [(0%R, 0%R, 100%Z); (45%R, 0%R, 100%Z); (90%R, 0%R, 100%Z)])%nat.
Proof.
  apply (generate_waypoints_spacing_monotone (0, 0) (90, 0) 4459700 7645200).
  - lra.
  - exact generate_waypoints_three_points.
  - exact generate_waypoints_pole_two_points.
Defined.

(** ** Where the doubles part from the reals *)

(** Runs the arithmetic of the doubles up to the next call of the C
    library. *)
Ltac run_doubles :=
  cbv - [Binary64.libm_sin Binary64.libm_cos Binary64.libm_asin
         Binary64.libm_atan2 Binary64.libm_pow].

Section Doubles.

Import PrimFloat.
Local Open Scope float_scope.
#[local] Set Warnings "-inexact-float".

Variable m : Binary64.libm.

Hypothesis sin_half_dphi :
  Binary64.libm_sin m (-0.13962634015954636) = -0.13917310096006544.
Hypothesis pow_sin_half_dphi :
  Binary64.libm_pow m 0.13917310096006544 2 = 0.019369152030840567.
Hypothesis cos_phi1 :
  Binary64.libm_cos m 0.13962634015954636 = 0.9902680687415704.
Hypothesis cos_phi2 :
  Binary64.libm_cos m (-0.13962634015954636) = 0.9902680687415704.
Hypothesis sin_half_dlambda :
  Binary64.libm_sin m 1.5707963267948966 = 1.
Hypothesis asin_one :
  Binary64.libm_asin m 1 = 1.5707963267948966.

(** C8: on the antipodal pair (8, 0), (-8, 180), with the values the C
    library returns there, the doubles give the haversine term
    a = 1.0000000000000002: the atan2-based function raises [ValueError]
    at [math.sqrt(1 - a)], and the asin-based one, for which [sqrt a]
    rounds to 1, returns 20015086.79602057. *)
Theorem haversine_binary64_antipodal :
  Binary64.Day3.haversine_distance m 8 0 (-8) 180 = Raise ValueError
  /\ Binary64.Backup.haversine_distance m 8 0 (-8) 180 = Ok 20015086.79602057.
Proof.
  split.
  - run_doubles. rewrite sin_half_dphi.
    run_doubles. rewrite pow_sin_half_dphi.
    run_doubles. rewrite cos_phi1.
    run_doubles. rewrite cos_phi2.
    run_doubles. rewrite sin_half_dlambda.
    run_doubles. reflexivity.
  - run_doubles. rewrite sin_half_dphi.
    run_doubles. rewrite pow_sin_half_dphi.
    run_doubles. rewrite cos_phi1.
    run_doubles. rewrite cos_phi2.
    run_doubles. rewrite sin_half_dlambda.
    run_doubles. rewrite asin_one.
    run_doubles. reflexivity.
Qed.

End Doubles.

Lemma haversine_short_meridian_leg :
  Day3.haversine_distance 2.1 (-47.2) 0.4 (-47.2) = Ok (6371000 * Py.radians 1.7).
Proof.
  assert (Habs : Rabs (0.4 - 2.1) = 1.7) by (rewrite Rabs_left; lra).
  destruct (haversine_meridian_value 2.1 0.4 (-47.2)) as [-> _].
  - rewrite Habs. lra.
  - now rewrite Habs.
Qed.

Lemma short_meridian_leg_num_points :
  Zfloor (6371000 * Py.radians 1.7 / 100000) = 1%Z.
Proof.
  apply Zfloor_eq. unfold Py.radians.
  pose proof PI_gt_3. pose proof PI_le_68_21. lra.
Qed.

Section DoublesRuns.

Import PrimFloat.
Local Open Scope float_scope.
#[local] Set Warnings "-inexact-float".

Lemma haversine_binary64_antipodal_witness :
  Binary64.Day3.haversine_distance Binary64.libm_antipodal_run 8 0 (-8) 180
  = Raise ValueError
  /\ Binary64.Backup.haversine_distance Binary64.libm_antipodal_run 8 0 (-8) 180
     = Ok 20015086.79602057.
Proof.
  apply (haversine_binary64_antipodal Binary64.libm_antipodal_run);
    vm_compute; reflexivity.
Defined.

(** C10, as the claim has it, fails in the doubles: from (2.1, -47.2) to
    (0.4, -47.2) at spacing 100000 the distance is 6371000 times 1.7
    degrees in radians, about 189 km, so the point count is 1; the loop
    then ends on the latitude 2.1 + (0.4 - 2.1) * 1.0, which rounds to
    0.3999999999999999, below the smaller of the two latitudes. *)
Lemma generate_waypoints_leaves_interval :
  (exists d : R,
      Day3.haversine_distance 2.1 (-47.2) 0.4 (-47.2) = Ok d
      /\ Zfloor (d / 100000) = 1%Z)
  /\ Binary64.Day3.generate_waypoints_loop 1 (2.1, -47.2) (0.4, -47.2)
     = Ok [(2.1, -47.2, 100%Z); (0.3999999999999999, -47.2, 100%Z)]
  /\ (0.3999999999999999 <? 0.4) = true.
Proof.
  split.
  - eexists. split; [exact haversine_short_meridian_leg |].
    exact short_meridian_leg_num_points.
  - split; vm_compute; reflexivity.
Qed.

End DoublesRuns.
